(** * compare_gas_vs_analist: reconciliation of a CSV and a JSON export

    A shallow embedding of [scripts/compare_gas_vs_analist.py].  The script
    loads four tables twice (once from CSV through [csv.DictReader], once
    from JSON through [json.load]), reduces every row to a tuple of
    normalised fields, collects the tuples of each side in a set and
    appends a textual comparison to the global [report_lines].

    Python values are a tagged union, dicts are insertion-ordered
    association lists, [set] is stdpp's [gset], the module-level list
    [report_lines] is threaded explicitly, and an uncaught exception is a
    [Raise] result. *)

From Stdlib Require Import Ascii String.
From stdpp Require Import gmap strings list pretty.

Open Scope string_scope.
Open Scope list_scope.

Set Warnings "-clear-no-such-hyp".

(** ** Python values *)

(** Keys of the dicts the script meets: JSON objects are keyed by text,
    and [csv.DictReader] keys a row by the header cells, plus the key
    [None] (its default [restkey]) for the cells of an over-long line. *)
Inductive pykey : Type :=
  | KNone
  | KStr (s : string).

Coercion KStr : string >-> pykey.

(** What [json.load] and [csv.DictReader] can produce.  Text is a byte
    string; a float is carried by its [repr] text (the shortest text that
    reads back to the same float), which is all the script ever asks of
    it besides its truth value. *)
#[warnings="-register-all"]
Inductive pyval : Type :=
  | PNone
  | PBool (b : bool)
  | PInt (z : Z)
  | PFloat (repr : string)
  | PStr (s : string)
  | PList (l : list pyval)
  | PDict (d : list (pykey * pyval)).

Abbreviation pydict := (list (pykey * pyval)).

#[global] Instance pykey_eq_dec : EqDecision pykey.
Proof. solve_decision. Defined.

(** An uncaught exception ends the run; the only one the comparison
    itself can raise is the attribute lookup on a row that has none. *)
Inductive exn : Type :=
  | AttributeError.

Inductive result (A : Type) : Type :=
  | Ok (a : A)
  | Raise (e : exn).

Arguments Ok {A} a.
Arguments Raise {A} e.

#[global] Instance result_ret : MRet result := λ A a, Ok a.

#[global] Instance result_bind : MBind result := λ A B k m,
  match m with
  | Ok a => k a
  | Raise e => Raise e
  end.

(** ** Builtins *)

Definition isinstance_bool (v : pyval) : bool :=
  match v with PBool _ => true | _ => false end.

Definition isinstance_list (v : pyval) : bool :=
  match v with PList _ => true | _ => false end.

Definition isinstance_dict (v : pyval) : bool :=
  match v with PDict _ => true | _ => false end.

Definition is_None (v : pyval) : bool :=
  match v with PNone => true | _ => false end.

(** [bool(v)]: the truth value of a Python object. *)
Definition truthy (v : pyval) : bool :=
  match v with
  | PNone => false
  | PBool b => b
  | PInt z => negb (z =? 0)%Z
  | PFloat r => negb (bool_decide (r ∈ ["0.0"; "-0.0"]))
  | PStr s => negb (bool_decide (s = ""))
  | PList l => match l with [] => false | _ :: _ => true end
  | PDict d => match d with [] => false | _ :: _ => true end
  end.

(** *** Text

    [str.strip] and [str.lower] on the ASCII range; bytes from 128 up are
    left as they are.  On ASCII text these are the builtins; the
    whitespace and the capitals outside ASCII, which the builtins also
    strip and lower, are outside the model, and so is the escaping of
    non-printable characters outside ASCII by [repr]. *)

(** The ASCII characters [str.isspace] accepts: tab to carriage return,
    the four separators 28-31 and the blank. *)
Definition is_space (c : ascii) : bool :=
  let n := nat_of_ascii c in
  ((9 <=? n) && (n <=? 13) || (28 <=? n) && (n <=? 32))%nat.

Fixpoint lstrip (s : string) : string :=
  match s with
  | EmptyString => EmptyString
  | String c s' => if is_space c then lstrip s' else s
  end.

Fixpoint rstrip (s : string) : string :=
  match s with
  | EmptyString => EmptyString
  | String c s' =>
      match rstrip s' with
      | EmptyString => if is_space c then EmptyString else String c EmptyString
      | r => String c r
      end
  end.

Definition strip (s : string) : string := rstrip (lstrip s).

Definition lower_char (c : ascii) : ascii :=
  let n := nat_of_ascii c in
  if ((65 <=? n) && (n <=? 90))%nat then ascii_of_nat (n + 32) else c.

Fixpoint lower (s : string) : string :=
  match s with
  | EmptyString => EmptyString
  | String c s' => String (lower_char c) (lower s')
  end.

Definition chr (n : nat) : string := String (ascii_of_nat n) EmptyString.

Definition backslash : string := chr 92.

Fixpoint contains_char (q : ascii) (s : string) : bool :=
  match s with
  | EmptyString => false
  | String c s' => bool_decide (c = q) || contains_char q s'
  end.

Definition hex_digit (n : nat) : string :=
  match n with
  | 10%nat => "a" | 11%nat => "b" | 12%nat => "c"
  | 13%nat => "d" | 14%nat => "e" | 15%nat => "f"
  | _ => chr (48 + n)
  end.

(** One character of [repr] of a text, inside the quote [q]. *)
Definition repr_char (q : ascii) (c : ascii) : string :=
  let n := nat_of_ascii c in
  if bool_decide (c = q) || (n =? 92)%nat then backslash +:+ String c EmptyString
  else if (n =? 9)%nat then backslash +:+ "t"
  else if (n =? 10)%nat then backslash +:+ "n"
  else if (n =? 13)%nat then backslash +:+ "r"
  else if ((n <? 32) || (n =? 127))%nat
       then backslash +:+ "x" +:+ hex_digit (n / 16) +:+ hex_digit (n mod 16)
  else String c EmptyString.

Fixpoint repr_chars (q : ascii) (s : string) : string :=
  match s with
  | EmptyString => EmptyString
  | String c s' => repr_char q c +:+ repr_chars q s'
  end.

(** [repr] of a text: single quotes, unless the text has a single quote
    and no double quote. *)
Definition repr_str (s : string) : string :=
  let q := if contains_char "'"%char s && negb (contains_char (ascii_of_nat 34) s)
           then ascii_of_nat 34 else "'"%char in
  String q EmptyString +:+ repr_chars q s +:+ String q EmptyString.

Definition repr_key (k : pykey) : string :=
  match k with
  | KNone => "None"
  | KStr s => repr_str s
  end.

Definition repr_bool (b : bool) : string := if b then "True" else "False".

Fixpoint py_repr (v : pyval) : string :=
  match v with
  | PNone => "None"
  | PBool b => repr_bool b
  | PInt z => pretty z
  | PFloat r => r
  | PStr s => repr_str s
  | PList l => "[" +:+ String.concat ", " (map py_repr l) +:+ "]"
  | PDict d =>
      "{" +:+ String.concat ", "
                (map (λ kv, repr_key kv.1 +:+ ": " +:+ py_repr kv.2) d) +:+ "}"
  end.

(** [str(v)]: the text itself for a text, [repr] for everything else the
    loaders produce. *)
Definition py_str (v : pyval) : string :=
  match v with
  | PStr s => s
  | _ => py_repr v
  end.

(** ** Normalisers *)

(** The two kinds of value a normaliser returns: a boolean or a text. *)
Inductive nval : Type :=
  | NBool (b : bool)
  | NStr (s : string).

#[global] Instance nval_eq_dec : EqDecision nval.
Proof. solve_decision. Defined.

#[global] Instance nval_countable : Countable nval.
Proof.
  refine (inj_countable'
            (λ n, match n with NBool b => inl b | NStr s => inr s end)
            (λ x, match x with inl b => NBool b | inr s => NStr s end) _).
  by intros [].
Defined.

Definition norm_bool (v : pyval) : nval :=
  match v with
  | PBool b => NBool b
  | PNone => NBool false
  | _ =>
      let s := lower (strip (py_str v)) in
      if bool_decide (s ∈ ["true"; "yes"; "1"]) then NBool true
      else if bool_decide (s ∈ ["false"; "no"; "0"; ""]) then NBool false
      else NStr s
  end.

Definition norm_str (v : pyval) : nval :=
  match v with
  | PNone => NStr ""
  | _ => NStr (py_str v)
  end.

(** ** Dicts *)

(** [d.get(k)]: dicts hold one entry per key, so the first entry found is
    the entry. *)
Fixpoint dict_lookup (d : pydict) (k : pykey) : option pyval :=
  match d with
  | [] => None
  | (k', v) :: d' => if bool_decide (k' = k) then Some v else dict_lookup d' k
  end.

(** [d.get(k, default)] *)
Definition dict_get (d : pydict) (k : pykey) (default : pyval) : pyval :=
  match dict_lookup d k with
  | Some v => v
  | None => default
  end.

(** [d.values()] *)
Definition dict_values (d : pydict) : list pyval := map snd d.

(** [d[k] = v]: overwrite in place, or append a new entry. *)
Fixpoint dict_set (d : pydict) (k : pykey) (v : pyval) : pydict :=
  match d with
  | [] => [(k, v)]
  | (k', v') :: d' =>
      if bool_decide (k' = k) then (k, v) :: d' else (k', v') :: dict_set d' k v
  end.

(** [any(xs)] *)
Definition any (xs : list pyval) : bool := existsb truthy xs.

(** ** Loader *)

(** The [for key in [...]] loop of [load_json_first_array], with its early
    return as [Some]. *)
Fixpoint first_array (keys : list string) (data : pyval) : option (list pyval) :=
  match keys with
  | [] => None
  | key :: keys' =>
      match data with
      | PDict d =>
          match dict_lookup d key with
          | Some (PList l) => Some l
          | _ => first_array keys' data
          end
      | _ => first_array keys' data
      end
  end.

Definition array_keys : list string :=
  ["data"; "tasks"; "sessions"; "subjects"; "categories"].

(** [load_json_first_array], from the parsed document on. *)
Definition load_json_first_array (data : pyval) : list pyval :=
  match first_array array_keys data with
  | Some l => l
  | None =>
      match data with
      | PList l => l
      | _ => []
      end
  end.

(** ** Comparator *)

(** A normalised row: the (output key, normalised value) pairs in the
    order of the field map. *)
Abbreviation row_tuple := (list (string * nval)).

Definition repr_nval (v : nval) : string :=
  match v with
  | NBool b => repr_bool b
  | NStr s => repr_str s
  end.

Definition repr_pair (kv : string * nval) : string :=
  "(" +:+ repr_str kv.1 +:+ ", " +:+ repr_nval kv.2 +:+ ")".

Definition repr_tuple (t : row_tuple) : string :=
  match t with
  | [] => "()"
  | [kv] => "(" +:+ repr_pair kv +:+ ",)"
  | _ => "(" +:+ String.concat ", " (map repr_pair t) +:+ ")"
  end.

Definition repr_tuples (ts : list row_tuple) : string :=
  "[" +:+ String.concat ", " (map repr_tuple ts) +:+ "]".

(** The lines [compare_sets] can append, and their text. *)
Inductive report_line : Type :=
  | Header (name : string)
  | Counts (n_csv n_gas : nat)
  | Match
  | OnlyIn (side : string) (n : nat) (sample : list row_tuple)
  | Blank.

Definition render (ln : report_line) : string :=
  match ln with
  | Header name => "== " +:+ name +:+ " =="
  | Counts n m => "CSV count: " +:+ pretty n +:+ ", GAS count: " +:+ pretty m
  | Match => "MATCH: Data sets are identical (for compared fields)."
  | OnlyIn side n sample =>
      "Only in " +:+ side +:+ " (" +:+ pretty n +:+ "): sample -> "
        +:+ repr_tuples sample
  | Blank => ""
  end.

Section Comparator.

(** The order in which [list(s)] walks a set depends on the hashes of
    its elements, which change from run to run, and on the order in which
    the elements went in; all the script may count on is that every
    element comes up once.  [set_iter] is the walk of the run at hand:
    where two runs put their tuples in in different orders, each run has
    a walk of its own. *)
Variable set_iter : gset row_tuple → list row_tuple.

Section with_fields.

Variable field_map : list (string * string).
Variable ignore_fields : gset string.

(** One turn of the loop of [row_to_tuple] over [mapping.items()]. *)
Definition row_to_tuple_step (row : pydict) (is_csv : bool)
    (items : row_tuple) (kv : string * string) : row_tuple :=
  let '(out_key, src_key) := kv in
  if bool_decide (out_key ∈ ignore_fields) then items
  else
    let val := if is_csv then dict_get row src_key (PStr "")
               else dict_get row src_key (PStr "") in
    if bool_decide (out_key ∈ ["active"])
    then items ++ [(out_key, norm_bool val)]
    else items ++ [(out_key, norm_str val)].

Definition row_to_tuple (row : pydict) (mapping : list (string * string))
    (is_csv : bool) : row_tuple :=
  foldl (row_to_tuple_step row is_csv) [] mapping.

(** The generator under [csv_set]: every row is asked for its
    [values()], which only a dict has. *)
Fixpoint csv_tuples (csv_rows : list pyval) : result (list row_tuple) :=
  match csv_rows with
  | [] => mret []
  | r :: rows =>
      match r with
      | PDict d =>
          ts ← csv_tuples rows;
          mret (if any (dict_values d)
                then row_to_tuple d field_map true :: ts
                else ts)
      | _ => Raise AttributeError
      end
  end.

(** The generator under [gas_set]: [isinstance(r, dict)] guards the
    call of [values()]. *)
Fixpoint gas_tuples (gas_rows : list pyval) : list row_tuple :=
  match gas_rows with
  | [] => []
  | r :: rows =>
      match r with
      | PDict d =>
          if any (dict_values d)
          then row_to_tuple d field_map false :: gas_tuples rows
          else gas_tuples rows
      | _ => gas_tuples rows
      end
  end.

Definition csv_set (csv_rows : list pyval) : result (gset row_tuple) :=
  ts ← csv_tuples csv_rows; mret (list_to_set ts).

Definition gas_set (gas_rows : list pyval) : gset row_tuple :=
  list_to_set (gas_tuples gas_rows).

End with_fields.

(** The lines one comparison appends, from the two sets on. *)
Definition report (name : string) (csv gas : gset row_tuple)
    : list report_line :=
  let only_in_csv := csv ∖ gas in
  let only_in_gas := gas ∖ csv in
  ([Header name; Counts (size csv) (size gas)]
  ++ (if bool_decide (only_in_csv = ∅) && bool_decide (only_in_gas = ∅)
      then [Match]
      else
        (if bool_decide (only_in_csv = ∅) then []
         else [OnlyIn "CSV" (size only_in_csv) (take 3 (set_iter only_in_csv))])
        ++
        (if bool_decide (only_in_gas = ∅) then []
         else [OnlyIn "GAS" (size only_in_gas) (take 3 (set_iter only_in_gas))]))
  ++ [Blank])%list.

(** [compare_sets]; the global [report_lines] goes in and comes out.
    [ignore_fields] is [None] when the caller leaves it out. *)
Definition compare_sets (name : string) (csv_rows gas_rows : list pyval)
    (field_map : list (string * string))
    (ignore_fields : option (list string))
    (report_lines : list string) : result (list string) :=
  let ignore_fields : gset string := list_to_set (default [] ignore_fields) in
  csv ← csv_set field_map ignore_fields csv_rows;
  let gas := gas_set field_map ignore_fields gas_rows in
  mret (report_lines ++ map render (report name csv gas))%list.

End Comparator.

(** ** The four tables *)

Definition subjects_field_map : list (string * string) :=
  [("subject_name", "subject_name"); ("color", "color"); ("icon", "icon");
   ("active", "active")].

Definition categories_field_map : list (string * string) :=
  [("category_name", "category_name"); ("subject_name", "subject_name");
   ("difficulty", "difficulty"); ("active", "active")].

(** The CSV has a column literally named [W szkole]. *)
Definition study_tasks_field_map : list (string * string) :=
  [("task_id", "task_id"); ("task_name", "task_name");
   ("description", "description"); ("categories", "categories");
   ("correctly_completed", "correctly_completed");
   ("start_time", "start_time"); ("end_time", "end_time");
   ("W szkole", "W szkole"); ("subject", "subject");
   ("session_id", "session_id")].

(** The CSV has an extra [date] column that the JSON export lacks; it is
    left out of the map. *)
Definition study_sessions_field_map : list (string * string) :=
  [("session_id", "session_id"); ("start_time", "start_time");
   ("end_time", "end_time"); ("duration_minutes", "duration_minutes");
   ("total_tasks", "total_tasks"); ("correct_tasks", "correct_tasks");
   ("accuracy_percentage", "accuracy_percentage"); ("notes", "notes")].

(** One table as the script holds it: the rows [read_csv] returned and
    the document [json.load] returned. *)
Record table_input : Type := {
  csv_rows_of : list pyval;
  gas_doc_of : pyval
}.

(** The module body from the loaded files on: the four comparisons in
    turn over the initially empty [report_lines]. *)
Definition run (set_iter : gset row_tuple → list row_tuple)
    (subjects categories studytasks studysessions : table_input)
    : result (list string) :=
  let cmp name t fm lines :=
    compare_sets set_iter name (csv_rows_of t)
      (load_json_first_array (gas_doc_of t)) fm None lines in
  lines ← cmp "Subjects" subjects subjects_field_map [];
  lines ← cmp "Categories" categories categories_field_map lines;
  lines ← cmp "StudyTasks" studytasks study_tasks_field_map lines;
  cmp "StudySessions" studysessions study_sessions_field_map lines.

(** The text the script prints. *)
Definition output (report_lines : list string) : string :=
  String.concat (chr 10) report_lines.

(** ** Views used in the proofs *)

(** What one entry of the field map adds to the tuple of a row. *)
Definition tuple_entry (ignore_fields : gset string) (row : pydict)
    (kv : string * string) : option (string * nval) :=
  if bool_decide (kv.1 ∈ ignore_fields) then None
  else Some (kv.1,
             if bool_decide (kv.1 = "active")
             then norm_bool (dict_get row kv.2 (PStr ""))
             else norm_str (dict_get row kv.2 (PStr ""))).

(** The rows that reach the comparison: dicts with a truthy value. *)
Definition counted (r : pyval) : bool :=
  match r with
  | PDict d => any (dict_values d)
  | _ => false
  end.

(** A recognised key [k] applies to a document when the root is a dict
    that holds a list under [k]. *)
Definition key_applies (data : pyval) (k : string) : Prop :=
  ∃ d l, data = PDict d ∧ dict_lookup d k = Some (PList l).

#[global] Instance key_applies_dec data k : Decision (key_applies data k).
Proof.
  refine (match data with
          | PDict d =>
              match dict_lookup d k as o
                    return dict_lookup d k = o → _ with
              | Some (PList l) => λ H, left _
              | _ => λ H, right _
              end eq_refl
          | _ => right _
          end);
    try (by intros (? & ? & ? & ?)); try (by eexists _, _);
    intros (? & ? & [= <-] & ?); congruence.
Defined.


(** The Python object a normalised value is. *)
Definition nval_as_py (n : nval) : pyval :=
  match n with
  | NBool b => PBool b
  | NStr s => PStr s
  end.

(** Texts made of whitespace only. *)
Fixpoint all_space (s : string) : bool :=
  match s with
  | EmptyString => true
  | String c s' => is_space c && all_space s'
  end.

(** The words [norm_bool] turns into a boolean. *)
Definition bool_words : list string :=
  ["true"; "yes"; "1"; "false"; "no"; "0"; ""].

(** A value as a CSV cell would hold it: its [str], and nothing for
    [None]. *)
Definition as_text (v : pyval) : pyval :=
  match v with
  | PNone => PStr ""
  | _ => PStr (py_str v)
  end.

(** A row with every value written as text. *)
Definition dict_as_text (d : pydict) : pydict :=
  map (λ kv, (kv.1, as_text kv.2)) d.

(** Two report lines that tell the same but for the sample they show:
    which tuples of a difference [list(s)[:3]] picks, and in which order,
    hangs on the order the rows went into the sets, so two runs over
    rearranged rows may show other samples of the same difference. *)
Inductive same_line : report_line → report_line → Prop :=
  | same_line_sample side n sample sample' :
      same_line (OnlyIn side n sample) (OnlyIn side n sample')
  | same_line_refl ln : same_line ln ln.

(** Two outcomes of [compare_sets] over the same earlier lines that
    differ at most in the samples: the same error, or the same lines one
    by one up to the sample of an [Only in] line. *)
Definition same_report_but_samples (report_lines : list string)
    (r r' : result (list string)) : Prop :=
  match r, r' with
  | Ok out, Ok out' =>
      ∃ block block',
        out = report_lines ++ map render block
        ∧ out' = report_lines ++ map render block'
        ∧ Forall2 same_line block block'
  | Raise e, Raise e' => e = e'
  | _, _ => False
  end.

(** Texts within ASCII, where [strip] and [lower] above are [str.strip]
    and [str.lower]. *)
Fixpoint is_ascii (s : string) : bool :=
  match s with
  | EmptyString => true
  | String c s' => (nat_of_ascii c <? 128)%nat && is_ascii s'
  end.

(** ** Sample rows *)

Definition math_csv : pydict :=
  [(KStr "subject_name", PStr "Math"); (KStr "color", PStr "blue");
   (KStr "icon", PInt 7); (KStr "active", PStr "yes")].

Definition math_gas : pydict :=
  [(KStr "active", PBool true); (KStr "subject_name", PStr "Math");
   (KStr "color", PStr "blue"); (KStr "icon", PStr "7")].

(** A row whose values are all falsy: empty text, [None], zero, [False]. *)
Definition blank_row : pydict :=
  [(KStr "subject_name", PStr ""); (KStr "color", PNone);
   (KStr "icon", PInt 0); (KStr "active", PBool false)].

Definition session_row : pydict :=
  [(KStr "session_id", PStr "s1"); (KStr "date", PStr "2024-01-01");
   (KStr "notes", PStr "")].

Definition physics_csv : pydict :=
  [(KStr "subject_name", PStr "Physics"); (KStr "color", PStr "red");
   (KStr "icon", PStr "atom"); (KStr "active", PStr "no")].

(** ** Loader: which list comes back *)

Lemma first_array_not_dict keys data :
  isinstance_dict data = false → first_array keys data = None.
Proof.
  intros Hd. induction keys as [|k keys IH]; [done|].
  destruct data; simpl in *; try done.
Qed.

Lemma first_array_cons k keys d :
  first_array (k :: keys) (PDict d) =
  if decide (key_applies (PDict d) k)
  then match dict_lookup d k with Some (PList l) => Some l | _ => None end
  else first_array keys (PDict d).
Proof.
  simpl. destruct (decide _) as [(d' & l & [= <-] & ->)|Hn]; [done|].
  destruct (dict_lookup d k) as [[]|] eqn:Hk; try done.
  destruct Hn. by eexists _, _.
Qed.

Lemma first_array_Some keys data l :
  first_array keys data = Some l ↔
  ∃ pre k post d,
    keys = pre ++ k :: post ∧ data = PDict d ∧
    dict_lookup d k = Some (PList l) ∧
    Forall (λ k', ¬ key_applies data k') pre.
Proof.
  split.
  - destruct data as [| | | | | |d];
      try (intros Hf; rewrite first_array_not_dict in Hf; done).
    induction keys as [|k keys IH]; [done|].
    rewrite first_array_cons. destruct (decide _) as [Hk|Hk].
    + destruct Hk as (d' & l' & [= <-] & Hk). rewrite Hk. intros [= ->].
      by exists [], k, keys, d.
    + intros Hf. destruct (IH Hf) as (pre & k0 & post & d0 & -> & Hd & Hl & Hpre).
      exists (k :: pre), k0, post, d0. split_and!; try done.
      by constructor.
  - intros (pre & k & post & d & -> & -> & Hl & Hpre).
    induction Hpre as [|k0 pre Hk0 Hpre IH]; simpl; [by rewrite Hl|].
    change (first_array (k0 :: pre ++ k :: post) (PDict d) = Some l).
    rewrite first_array_cons. by destruct (decide _).
Qed.

Lemma first_array_None keys data :
  first_array keys data = None ↔ Forall (λ k, ¬ key_applies data k) keys.
Proof.
  destruct data as [| | | | | |d];
    try (split; [intros _; apply Forall_forall; by intros k _ (? & ? & ? & ?)
                |intros _; by apply first_array_not_dict]).
  induction keys as [|k keys IH]; [done|].
  rewrite first_array_cons, Forall_cons. destruct (decide _) as [Hk|Hk].
  - split; [|by intros [? _]].
    destruct Hk as (d' & l' & [= <-] & Hk). by rewrite Hk.
  - rewrite IH. split; [by split | by intros [_ ?]].
Qed.

Lemma load_first_key pre k post d l :
  array_keys = pre ++ k :: post →
  dict_lookup d k = Some (PList l) →
  Forall (λ k', ¬ key_applies (PDict d) k') pre →
  load_json_first_array (PDict d) = l.
Proof.
  intros Hk Hl Hpre. unfold load_json_first_array.
  assert (first_array array_keys (PDict d) = Some l) as ->; [|done].
  apply first_array_Some. by exists pre, k, post, d.
Qed.

Lemma load_root_list l :
  Forall (λ k, ¬ key_applies (PList l) k) array_keys
  ∧ load_json_first_array (PList l) = l.
Proof.
  assert (Forall (λ k, ¬ key_applies (PList l) k) array_keys) as Hno.
  { apply Forall_forall. by intros k _ (? & ? & ? & ?). }
  split; [done|]. unfold load_json_first_array.
  by apply first_array_None in Hno as ->.
Qed.

Lemma load_nothing data :
  Forall (λ k, ¬ key_applies data k) array_keys →
  isinstance_list data = false →
  load_json_first_array data = [].
Proof.
  intros Hno Hnl. unfold load_json_first_array.
  apply first_array_None in Hno as ->. by destruct data.
Qed.

(** C3: the loader returns the list under the first of [data], [tasks],
    [sessions], [subjects], [categories] (in that order) that the root
    dict maps to a list; when no such key applies and the root is a list
    it returns the root; otherwise it returns the empty list. *)
Theorem load_json_first_array_cases :
  (∀ pre k post d l,
      array_keys = pre ++ k :: post →
      dict_lookup d k = Some (PList l) →
      Forall (λ k', ¬ key_applies (PDict d) k') pre →
      load_json_first_array (PDict d) = l)
  ∧ (∀ l, Forall (λ k, ¬ key_applies (PList l) k) array_keys
          ∧ load_json_first_array (PList l) = l)
  ∧ (∀ data,
      Forall (λ k, ¬ key_applies data k) array_keys →
      isinstance_list data = false →
      load_json_first_array data = []).
Proof.
  split_and!;
    [exact load_first_key | exact load_root_list | exact load_nothing].
Qed.

(** Witness for C3: a document with an unrecognised list, a recognised
    key that holds no list and [tasks] holding one; and a document with
    only an unrecognised key. *)
Lemma load_json_first_array_cases_witness :
  load_json_first_array
    (PDict [(KStr "foo", PList [PInt 1]); (KStr "tasks", PList [PInt 2]);
            (KStr "data", PInt 0)]) = [PInt 2]
  ∧ load_json_first_array (PDict [(KStr "foo", PList [PInt 1])]) = [].
Proof.
  split.
  - apply (proj1 load_json_first_array_cases ["data"] "tasks"
             ["sessions"; "subjects"; "categories"]);
      [reflexivity | reflexivity | by apply (bool_decide_unpack _)].
  - apply (proj2 (proj2 load_json_first_array_cases));
      [by apply (bool_decide_unpack _) | reflexivity].
Defined.

(** C8: a document that is neither a list nor a dict holding a list under
    a recognised key loads as the empty list, with no error; the table is
    then compared against the empty set. *)
Theorem load_json_unrecognised_is_empty (data : pyval)
    (set_iter : gset row_tuple → list row_tuple) (name : string)
    (csv_rows : list pyval) (field_map : list (string * string))
    (ignore_fields : option (list string)) (report_lines : list string) :
  isinstance_list data = false →
  Forall (λ k, ¬ key_applies data k) array_keys →
  load_json_first_array data = []
  ∧ gas_set field_map (list_to_set (default [] ignore_fields))
      (load_json_first_array data) = ∅
  ∧ compare_sets set_iter name csv_rows (load_json_first_array data)
      field_map ignore_fields report_lines
    = compare_sets set_iter name csv_rows [] field_map ignore_fields
        report_lines.
Proof.
  intros Hnl Hno. by rewrite (load_nothing data Hno Hnl).
Qed.

Lemma load_json_unrecognised_is_empty_witness :
  load_json_first_array (PDict [(KStr "foo", PList [PInt 1])]) = []
  ∧ compare_sets elements "Subjects" []
      (load_json_first_array (PDict [(KStr "foo", PList [PInt 1])]))
      subjects_field_map None []
    = Ok ["== Subjects =="; "CSV count: 0, GAS count: 0";
          "MATCH: Data sets are identical (for compared fields)."; ""].
Proof.
  destruct (load_json_unrecognised_is_empty
              (PDict [(KStr "foo", PList [PInt 1])]) elements "Subjects" []
              subjects_field_map None [])
    as (Hl & _ & Hc); [reflexivity | by apply (bool_decide_unpack _) |].
  split; [exact Hl|]. rewrite Hc. reflexivity.
Defined.

(** ** Normalisers *)

Lemma norm_bool_bool b : norm_bool (PBool b) = NBool b.
Proof. done. Qed.

Lemma norm_bool_None : norm_bool PNone = NBool false.
Proof. done. Qed.

(** On anything but a boolean or [None], the answer is read off the
    stripped, lower-cased text of the value. *)
Lemma norm_bool_text v :
  isinstance_bool v = false → is_None v = false →
  norm_bool v =
    let s := lower (strip (py_str v)) in
    if bool_decide (s ∈ ["true"; "yes"; "1"]) then NBool true
    else if bool_decide (s ∈ ["false"; "no"; "0"; ""]) then NBool false
    else NStr s.
Proof. by destruct v. Qed.

Lemma norm_bool_true_words v :
  isinstance_bool v = false → is_None v = false →
  lower (strip (py_str v)) ∈ ["true"; "yes"; "1"] →
  norm_bool v = NBool true.
Proof.
  intros Hb Hn Hin. rewrite norm_bool_text by done. simpl.
  by rewrite bool_decide_eq_true_2.
Qed.

Lemma norm_bool_false_words v :
  isinstance_bool v = false → is_None v = false →
  lower (strip (py_str v)) ∈ ["false"; "no"; "0"; ""] →
  norm_bool v = NBool false.
Proof.
  intros Hb Hn Hin. rewrite norm_bool_text by done. simpl.
  rewrite (bool_decide_eq_true_2 (_ ∈ ["false"; "no"; "0"; ""])) by done.
  case_bool_decide as Ht; [|done].
  exfalso. apply list_elem_of_In in Hin, Ht. simpl in *.
  intuition congruence.
Qed.

Lemma norm_bool_other v :
  isinstance_bool v = false → is_None v = false →
  lower (strip (py_str v)) ∉ ["true"; "yes"; "1"; "false"; "no"; "0"; ""] →
  norm_bool v = NStr (lower (strip (py_str v))).
Proof.
  intros Hb Hn Hin. rewrite norm_bool_text by done. simpl.
  rewrite !bool_decide_eq_false_2; [done| |]; set_solver.
Qed.

Example norm_bool_yes_padded :
  norm_bool (PStr (" YeS" +:+ chr 10)) = NBool true.
Proof. reflexivity. Qed.

Example norm_bool_maybe : norm_bool (PStr "maybe") = NStr "maybe".
Proof. reflexivity. Qed.

Example norm_bool_int_one : norm_bool (PInt 1) = NBool true.
Proof. reflexivity. Qed.

(** C2, at the input where the code leaves it: the fall-through line is
    [return s  # return original if unknown], and [s] is the stripped and
    lower-cased text, so the unknown text [Maybe] comes back as [maybe]
    and not as it went in. *)
Theorem norm_bool_unknown_not_original :
  norm_bool (PStr "Maybe") = NStr "maybe"
  ∧ norm_bool (PStr "Maybe") ≠ NStr "Maybe".
Proof. split; [reflexivity | discriminate]. Qed.

Lemma norm_str_None : norm_str PNone = NStr "".
Proof. done. Qed.

Lemma norm_str_text s : norm_str (PStr s) = NStr s.
Proof. done. Qed.

(** ** Rows and their tuples *)

Section Tuples.

Context (field_map : list (string * string)) (ignore_fields : gset string).

Lemma row_to_tuple_step_entry row is_csv items kv :
  row_to_tuple_step ignore_fields row is_csv items kv =
  items ++ option_list (tuple_entry ignore_fields row kv).
Proof.
  destruct kv as [out_key src_key]. unfold row_to_tuple_step, tuple_entry.
  simpl. case_bool_decide; [by rewrite app_nil_r|].
  destruct is_csv;
    repeat case_bool_decide; simpl; try done;
    by (exfalso; set_solver).
Qed.

Lemma row_to_tuple_omap row mapping is_csv :
  row_to_tuple ignore_fields row mapping is_csv =
  omap (tuple_entry ignore_fields row) mapping.
Proof.
  unfold row_to_tuple.
  enough (∀ acc, foldl (row_to_tuple_step ignore_fields row is_csv) acc mapping
                 = acc ++ omap (tuple_entry ignore_fields row) mapping)
    as H by apply H.
  induction mapping as [|kv mapping IH]; intros acc; simpl.
  - by rewrite app_nil_r.
  - rewrite IH, row_to_tuple_step_entry, <- app_assoc.
    by destruct (tuple_entry _ _ _).
Qed.

(** Both sides build their tuples the same way. *)
Lemma row_to_tuple_side row mapping :
  row_to_tuple ignore_fields row mapping true =
  row_to_tuple ignore_fields row mapping false.
Proof. by rewrite !row_to_tuple_omap. Qed.

Lemma gas_tuples_app rows1 rows2 :
  gas_tuples field_map ignore_fields (rows1 ++ rows2) =
  gas_tuples field_map ignore_fields rows1
  ++ gas_tuples field_map ignore_fields rows2.
Proof.
  induction rows1 as [|r rows1 IH]; [done|]. simpl.
  destruct r; try done. destruct (any _); by rewrite ?IH.
Qed.

Lemma gas_tuples_not_counted r :
  counted r = false → gas_tuples field_map ignore_fields [r] = [].
Proof. destruct r; try done. simpl. by intros ->. Qed.

Lemma gas_tuples_counted d :
  any (dict_values d) = true →
  gas_tuples field_map ignore_fields [PDict d] =
  [row_to_tuple ignore_fields d field_map false].
Proof. simpl. by intros ->. Qed.

Lemma elem_of_gas_tuples t rows :
  t ∈ gas_tuples field_map ignore_fields rows ↔
  ∃ d, PDict d ∈ rows ∧ any (dict_values d) = true
       ∧ t = row_to_tuple ignore_fields d field_map false.
Proof.
  induction rows as [|r rows IH].
  - split; [by intros ?%elem_of_nil|].
    by intros (d & ?%elem_of_nil & _).
  - change (r :: rows) with ([r] ++ rows).
    rewrite gas_tuples_app, elem_of_app, IH. split.
    + intros [Hr|(d & Hd & Ha & ->)].
      * destruct r as [| | | | | |d]; try by apply elem_of_nil in Hr.
        simpl in Hr. destruct (any (dict_values d)) eqn:Ha;
          [|by apply elem_of_nil in Hr].
        apply list_elem_of_singleton in Hr as ->.
        exists d. split_and!; try done. by left.
      * exists d. split_and!; try done. by right.
    + intros (d & [<-|Hd]%elem_of_cons & Ha & ->).
      * left. rewrite gas_tuples_counted by done. by left.
      * right. by exists d.
Qed.

Lemma elem_of_gas_set t rows :
  t ∈ gas_set field_map ignore_fields rows ↔
  ∃ d, PDict d ∈ rows ∧ any (dict_values d) = true
       ∧ t = row_to_tuple ignore_fields d field_map false.
Proof. unfold gas_set. by rewrite elem_of_list_to_set, elem_of_gas_tuples. Qed.

(** The CSV side raises on the first row that is not a dict, and
    otherwise collects what the JSON side would. *)
Lemma csv_tuples_dicts rows :
  csv_tuples field_map ignore_fields rows =
  if forallb isinstance_dict rows
  then Ok (gas_tuples field_map ignore_fields rows)
  else Raise AttributeError.
Proof.
  induction rows as [|r rows IH]; [done|].
  destruct r as [| | | | | |d]; try done. simpl. rewrite IH.
  destruct (forallb _ _); [|done]. simpl.
  by rewrite row_to_tuple_side.
Qed.

Lemma csv_set_dicts rows :
  csv_set field_map ignore_fields rows =
  if forallb isinstance_dict rows
  then Ok (gas_set field_map ignore_fields rows)
  else Raise AttributeError.
Proof.
  unfold csv_set, gas_set. rewrite csv_tuples_dicts.
  by destruct (forallb _ _).
Qed.

End Tuples.

(** ** What a tuple depends on *)

Lemma dict_lookup_set d k v k' :
  dict_lookup (dict_set d k v) k' =
  if decide (k = k') then Some v else dict_lookup d k'.
Proof.
  induction d as [|[k0 v0] d IH]; simpl.
  - case_bool_decide; by case_decide.
  - destruct (bool_decide_reflect (k0 = k)) as [->|Hne]; simpl.
    + case_bool_decide; by case_decide.
    + rewrite IH. case_bool_decide; case_decide; congruence.
Qed.

Lemma dict_get_set_ne d k v k' default :
  k ≠ k' → dict_get (dict_set d k v) k' default = dict_get d k' default.
Proof. intros Hne. unfold dict_get. rewrite dict_lookup_set. by case_decide. Qed.

Lemma dict_get_lookup d k v default :
  dict_lookup d k = Some v → dict_get d k default = v.
Proof. unfold dict_get. by intros ->. Qed.

Lemma dict_get_missing d k default :
  dict_lookup d k = None → dict_get d k default = default.
Proof. unfold dict_get. by intros ->. Qed.

(** Two rows get the same tuple as soon as every field that takes part
    gets the same entry. *)
Lemma row_to_tuple_ext ignore_fields row1 row2 mapping side1 side2 :
  Forall (λ kv, tuple_entry ignore_fields row1 kv
                = tuple_entry ignore_fields row2 kv) mapping →
  row_to_tuple ignore_fields row1 mapping side1 =
  row_to_tuple ignore_fields row2 mapping side2.
Proof.
  rewrite !row_to_tuple_omap.
  induction 1 as [|kv mapping Hkv _ IH]; [done|].
  cbn. rewrite Hkv. cbn in IH. by rewrite IH.
Qed.

(** C5: when the fields other than [active] stringify alike, a CSV row
    with active = "yes" and a JSON row with active = true get equal
    tuples: [norm_bool] sends both to [True], and it is applied to the
    [active] field only. *)
Theorem yes_and_true_same_tuple (ignore_fields : gset string)
    (field_map : list (string * string)) (csv_row gas_row : pydict) :
  (∀ out_key src_key : string,
      (out_key, src_key) ∈ field_map → out_key ∉ ignore_fields →
      out_key ≠ "active" →
      norm_str (dict_get csv_row src_key (PStr ""))
      = norm_str (dict_get gas_row src_key (PStr ""))) →
  (∀ src_key : string,
      ("active", src_key) ∈ field_map →
      dict_lookup csv_row src_key = Some (PStr "yes")
      ∧ dict_lookup gas_row src_key = Some (PBool true)) →
  norm_bool (PStr "yes") = norm_bool (PBool true)
  ∧ row_to_tuple ignore_fields csv_row field_map true
    = row_to_tuple ignore_fields gas_row field_map false.
Proof.
  intros Hother Hactive. split; [done|].
  apply row_to_tuple_ext, Forall_forall. intros [out_key src_key] Hin.
  unfold tuple_entry. simpl. case_bool_decide as Hign; [done|].
  case_bool_decide as Hact.
  - subst out_key. destruct (Hactive src_key Hin) as [Hc Hg].
    by rewrite (dict_get_lookup _ _ _ _ Hc), (dict_get_lookup _ _ _ _ Hg).
  - by rewrite (Hother out_key src_key).
Qed.

Lemma yes_and_true_same_tuple_witness :
  norm_bool (PStr "yes") = norm_bool (PBool true)
  ∧ row_to_tuple ∅ math_csv subjects_field_map true
    = row_to_tuple ∅ math_gas subjects_field_map false.
Proof.
  apply (yes_and_true_same_tuple ∅ subjects_field_map math_csv math_gas).
  - intros out_key src_key Hin _ Hne.
    apply list_elem_of_In in Hin. simpl in Hin.
    destruct Hin as [[= <- <-]|[[= <- <-]|[[= <- <-]|[[= <- <-]|[]]]]];
      by vm_compute.
  - intros src_key Hin.
    apply list_elem_of_In in Hin. simpl in Hin.
    destruct Hin as [[=]|[[=]|[[=]|[[= <-]|[]]]]]. by vm_compute.
Defined.

(** ** What a comparison set depends on *)

Section Sets.

Context (field_map : list (string * string)) (ignore_fields : gset string).

(** Only the dicts with a truthy value matter, not how often or where
    they occur. *)
Lemma gas_set_same_rows rows rows' :
  (∀ r, counted r = true → r ∈ rows ↔ r ∈ rows') →
  gas_set field_map ignore_fields rows
  = gas_set field_map ignore_fields rows'.
Proof.
  intros Hrows. apply set_eq. intros t. rewrite !elem_of_gas_set.
  split; intros (d & Hd & Ha & ->); exists d; split_and!; try done;
    by apply (Hrows (PDict d)).
Qed.

Lemma all_dicts_same_rows rows rows' :
  (∀ r, isinstance_dict r = false → r ∈ rows ↔ r ∈ rows') →
  forallb isinstance_dict rows = forallb isinstance_dict rows'.
Proof.
  intros Hrows. apply eq_true_iff_eq.
  rewrite !forallb_forall. setoid_rewrite <- list_elem_of_In.
  split; intros Hall r Hr;
    destruct (isinstance_dict r) eqn:Hd; try done;
    apply Hrows in Hr; try done; apply Hall in Hr; congruence.
Qed.

Lemma csv_set_same_rows rows rows' :
  (∀ r, counted r = true → r ∈ rows ↔ r ∈ rows') →
  (∀ r, isinstance_dict r = false → r ∈ rows ↔ r ∈ rows') →
  csv_set field_map ignore_fields rows
  = csv_set field_map ignore_fields rows'.
Proof.
  intros Hc Hd. rewrite !csv_set_dicts.
  by rewrite (all_dicts_same_rows _ _ Hd), (gas_set_same_rows _ _ Hc).
Qed.

Lemma csv_set_not_dict rows r :
  r ∈ rows → isinstance_dict r = false →
  csv_set field_map ignore_fields rows = Raise AttributeError.
Proof.
  intros Hin Hd. rewrite csv_set_dicts.
  destruct (forallb isinstance_dict rows) eqn:Hall; [|done].
  rewrite forallb_forall in Hall.
  apply list_elem_of_In, Hall in Hin. congruence.
Qed.

End Sets.

Lemma compare_sets_same_sets set_iter name csv_rows csv_rows' gas_rows gas_rows'
    field_map ignore_fields report_lines :
  csv_set field_map (list_to_set (default [] ignore_fields)) csv_rows
  = csv_set field_map (list_to_set (default [] ignore_fields)) csv_rows' →
  gas_set field_map (list_to_set (default [] ignore_fields)) gas_rows
  = gas_set field_map (list_to_set (default [] ignore_fields)) gas_rows' →
  compare_sets set_iter name csv_rows gas_rows field_map ignore_fields
    report_lines
  = compare_sets set_iter name csv_rows' gas_rows' field_map ignore_fields
      report_lines.
Proof. unfold compare_sets. by intros -> ->. Qed.

Lemma compare_sets_raise set_iter name csv_rows gas_rows field_map
    ignore_fields report_lines e :
  csv_set field_map (list_to_set (default [] ignore_fields)) csv_rows
  = Raise e →
  compare_sets set_iter name csv_rows gas_rows field_map ignore_fields
    report_lines = Raise e.
Proof. unfold compare_sets. by intros ->. Qed.

Lemma compare_sets_ok set_iter name csv_rows gas_rows field_map
    ignore_fields report_lines csv :
  csv_set field_map (list_to_set (default [] ignore_fields)) csv_rows
  = Ok csv →
  compare_sets set_iter name csv_rows gas_rows field_map ignore_fields
    report_lines
  = Ok (report_lines
        ++ map render
             (report set_iter name csv
                (gas_set field_map (list_to_set (default [] ignore_fields))
                   gas_rows))).
Proof. unfold compare_sets. by intros ->. Qed.

Lemma elem_of_insert_copies {A} (x y : A) (l1 l2 : list A) (n : nat) :
  x ∈ l1 ++ replicate n y ++ l2 ↔ x ∈ l1 ++ l2 ∨ (x = y ∧ n ≠ 0%nat).
Proof.
  rewrite !elem_of_app, elem_of_replicate. tauto.
Qed.

Lemma report_same_but_samples set_iter set_iter' name csv gas :
  Forall2 same_line (report set_iter name csv gas)
    (report set_iter' name csv gas).
Proof.
  unfold report. repeat constructor.
  do 2 case_bool_decide; simpl; repeat constructor.
Qed.

(** Equal sets give the same report up to the samples, whatever the two
    walks are. *)
Lemma compare_sets_same_but_samples set_iter set_iter' name
    csv_rows csv_rows' gas_rows gas_rows' field_map ignore_fields
    report_lines :
  csv_set field_map (list_to_set (default [] ignore_fields)) csv_rows
  = csv_set field_map (list_to_set (default [] ignore_fields)) csv_rows' →
  gas_set field_map (list_to_set (default [] ignore_fields)) gas_rows
  = gas_set field_map (list_to_set (default [] ignore_fields)) gas_rows' →
  same_report_but_samples report_lines
    (compare_sets set_iter name csv_rows gas_rows field_map ignore_fields
       report_lines)
    (compare_sets set_iter' name csv_rows' gas_rows' field_map ignore_fields
       report_lines).
Proof.
  intros Hc Hg.
  destruct (csv_set field_map (list_to_set (default [] ignore_fields))
              csv_rows') as [csv|e] eqn:Hcsv'.
  - rewrite (compare_sets_ok _ _ csv_rows _ _ _ _ csv Hc).
    rewrite (compare_sets_ok _ _ csv_rows' _ _ _ _ csv Hcsv'), Hg.
    unfold same_report_but_samples. eexists _, _.
    split; [reflexivity|]. split; [reflexivity|].
    apply report_same_but_samples.
  - rewrite (compare_sets_raise _ _ csv_rows _ _ _ _ e Hc).
    by rewrite (compare_sets_raise _ _ csv_rows' _ _ _ _ e Hcsv').
Qed.

(** ** Rows that leave the sets alone *)

(** C4: a row whose values are all falsy contributes no tuple on either
    side, so any number of blank rows added to either input changes
    neither set nor anything of the report. *)
Theorem blank_rows_are_dropped (set_iter : gset row_tuple → list row_tuple)
    (name : string) (field_map : list (string * string))
    (ignore_fields : option (list string)) (report_lines : list string)
    (blank_csv blank_gas : pydict) (c1 c2 g1 g2 : list pyval) (n m : nat) :
  any (dict_values blank_csv) = false →
  any (dict_values blank_gas) = false →
  csv_tuples field_map (list_to_set (default [] ignore_fields))
    [PDict blank_csv] = Ok []
  ∧ gas_tuples field_map (list_to_set (default [] ignore_fields))
      [PDict blank_gas] = []
  ∧ csv_set field_map (list_to_set (default [] ignore_fields))
      (c1 ++ replicate n (PDict blank_csv) ++ c2)
    = csv_set field_map (list_to_set (default [] ignore_fields)) (c1 ++ c2)
  ∧ gas_set field_map (list_to_set (default [] ignore_fields))
      (g1 ++ replicate m (PDict blank_gas) ++ g2)
    = gas_set field_map (list_to_set (default [] ignore_fields)) (g1 ++ g2)
  ∧ compare_sets set_iter name
      (c1 ++ replicate n (PDict blank_csv) ++ c2)
      (g1 ++ replicate m (PDict blank_gas) ++ g2)
      field_map ignore_fields report_lines
    = compare_sets set_iter name (c1 ++ c2) (g1 ++ g2)
        field_map ignore_fields report_lines.
Proof.
  intros Hc Hg.
  assert (∀ (b : pydict) k l1 l2 r, any (dict_values b) = false →
            counted r = true ∨ isinstance_dict r = false →
            r ∈ l1 ++ replicate k (PDict b) ++ l2 ↔ r ∈ l1 ++ l2) as Hrows.
  { intros b k l1 l2 r Hb Hr. rewrite elem_of_insert_copies.
    split; [|by left]. intros [?|[-> _]]; [done|].
    simpl in Hr. rewrite Hb in Hr. by destruct Hr. }
  assert (csv_set field_map (list_to_set (default [] ignore_fields))
            (c1 ++ replicate n (PDict blank_csv) ++ c2)
          = csv_set field_map (list_to_set (default [] ignore_fields))
              (c1 ++ c2)) as Hcsv.
  { apply csv_set_same_rows; intros r Hr; apply Hrows; auto. }
  assert (gas_set field_map (list_to_set (default [] ignore_fields))
            (g1 ++ replicate m (PDict blank_gas) ++ g2)
          = gas_set field_map (list_to_set (default [] ignore_fields))
              (g1 ++ g2)) as Hgas.
  { apply gas_set_same_rows; intros r Hr; apply Hrows; auto. }
  split_and!; try done.
  - simpl. by rewrite Hc.
  - simpl. by rewrite Hg.
  - by apply compare_sets_same_sets.
Qed.

Lemma blank_rows_are_dropped_witness :
  csv_set subjects_field_map ∅
    ([] ++ replicate 2 (PDict blank_row) ++ [PDict math_csv])
  = csv_set subjects_field_map ∅ ([] ++ [PDict math_csv])
  ∧ compare_sets elements "Subjects"
      ([] ++ replicate 2 (PDict blank_row) ++ [PDict math_csv])
      ([PDict math_gas] ++ replicate 3 (PDict []) ++ [])
      subjects_field_map None []
    = Ok ["== Subjects =="; "CSV count: 1, GAS count: 1";
          "MATCH: Data sets are identical (for compared fields)."; ""].
Proof.
  destruct (blank_rows_are_dropped elements "Subjects" subjects_field_map
              None [] blank_row [] [] [PDict math_csv] [PDict math_gas] []
              2 3) as (_ & _ & Hcsv & _ & Hcmp);
    [reflexivity | reflexivity |].
  split; [exact Hcsv|]. rewrite Hcmp. by vm_compute.
Defined.

(** C6: a row that is already there may be repeated any number of times
    on either side: both sets stay as they are, and with them the counts,
    the differences and the verdict of the report.  The run with the
    copies may walk its sets in another order, so its report is the
    report without them line by line, up to the samples shown. *)
Theorem duplicate_rows_collapse (set_iter : gset row_tuple → list row_tuple)
    (name : string) (field_map : list (string * string))
    (ignore_fields : option (list string)) (report_lines : list string)
    (r_csv r_gas : pyval) (c1 c2 g1 g2 : list pyval) (n m : nat) :
  r_csv ∈ c1 ++ c2 →
  r_gas ∈ g1 ++ g2 →
  csv_set field_map (list_to_set (default [] ignore_fields))
      (c1 ++ replicate n r_csv ++ c2)
    = csv_set field_map (list_to_set (default [] ignore_fields)) (c1 ++ c2)
  ∧ gas_set field_map (list_to_set (default [] ignore_fields))
      (g1 ++ replicate m r_gas ++ g2)
    = gas_set field_map (list_to_set (default [] ignore_fields)) (g1 ++ g2)
  ∧ ∀ set_iter' : gset row_tuple → list row_tuple,
      same_report_but_samples report_lines
        (compare_sets set_iter name (c1 ++ c2) (g1 ++ g2)
           field_map ignore_fields report_lines)
        (compare_sets set_iter' name
           (c1 ++ replicate n r_csv ++ c2) (g1 ++ replicate m r_gas ++ g2)
           field_map ignore_fields report_lines).
Proof.
  intros Hc Hg.
  assert (∀ (x : pyval) k l1 l2 r, x ∈ l1 ++ l2 →
            r ∈ l1 ++ replicate k x ++ l2 ↔ r ∈ l1 ++ l2) as Hrows.
  { intros x k l1 l2 r Hx. rewrite elem_of_insert_copies.
    split; [|by left]. by intros [?|[-> _]]. }
  assert (csv_set field_map (list_to_set (default [] ignore_fields))
            (c1 ++ replicate n r_csv ++ c2)
          = csv_set field_map (list_to_set (default [] ignore_fields))
              (c1 ++ c2)) as Hcsv.
  { apply csv_set_same_rows; intros r _; by apply Hrows. }
  assert (gas_set field_map (list_to_set (default [] ignore_fields))
            (g1 ++ replicate m r_gas ++ g2)
          = gas_set field_map (list_to_set (default [] ignore_fields))
              (g1 ++ g2)) as Hgas.
  { apply gas_set_same_rows; intros r _; by apply Hrows. }
  split_and!; try done.
  intros set_iter'. by apply compare_sets_same_but_samples.
Qed.

Lemma duplicate_rows_collapse_witness :
  csv_set subjects_field_map (list_to_set (default [] None))
      ([] ++ replicate 1 (PDict physics_csv)
          ++ [PDict math_csv; PDict physics_csv])
    = csv_set subjects_field_map (list_to_set (default [] None))
        ([] ++ [PDict math_csv; PDict physics_csv])
  ∧ gas_set subjects_field_map (list_to_set (default [] None))
      ([PDict blank_row] ++ replicate 2 (PDict blank_row) ++ [])
    = gas_set subjects_field_map (list_to_set (default [] None))
        ([PDict blank_row] ++ [])
  ∧ ∀ set_iter' : gset row_tuple → list row_tuple,
      same_report_but_samples []
        (compare_sets elements "Subjects"
           ([] ++ [PDict math_csv; PDict physics_csv])
           ([PDict blank_row] ++ [])
           subjects_field_map None [])
        (compare_sets set_iter' "Subjects"
           ([] ++ replicate 1 (PDict physics_csv)
               ++ [PDict math_csv; PDict physics_csv])
           ([PDict blank_row] ++ replicate 2 (PDict blank_row) ++ [])
           subjects_field_map None []).
Proof.
  apply (duplicate_rows_collapse elements "Subjects" subjects_field_map
           None [] (PDict physics_csv) (PDict blank_row)
           [] [PDict math_csv; PDict physics_csv] [PDict blank_row] [] 1 2).
  - right. by left.
  - by left.
Defined.

(** C10: on the JSON side an entry that is not a dict is passed over: it
    adds no tuple, and the comparison comes out as without it, raising
    nothing that was not raised already.  The CSV side has no such test:
    there the same entry raises. *)
Theorem non_dict_entries (set_iter : gset row_tuple → list row_tuple)
    (name : string) (field_map : list (string * string))
    (ignore_fields : option (list string)) (report_lines : list string)
    (r : pyval) (csv_rows gas_rows c1 c2 g1 g2 : list pyval) :
  isinstance_dict r = false →
  gas_tuples field_map (list_to_set (default [] ignore_fields)) [r] = []
  ∧ gas_set field_map (list_to_set (default [] ignore_fields))
      (g1 ++ r :: g2)
    = gas_set field_map (list_to_set (default [] ignore_fields)) (g1 ++ g2)
  ∧ compare_sets set_iter name csv_rows (g1 ++ r :: g2)
      field_map ignore_fields report_lines
    = compare_sets set_iter name csv_rows (g1 ++ g2)
        field_map ignore_fields report_lines
  ∧ (∀ csv,
       csv_set field_map (list_to_set (default [] ignore_fields)) csv_rows
       = Ok csv →
       ∃ lines, compare_sets set_iter name csv_rows (g1 ++ r :: g2)
                  field_map ignore_fields report_lines = Ok lines)
  ∧ csv_set field_map (list_to_set (default [] ignore_fields))
      (c1 ++ r :: c2) = Raise AttributeError
  ∧ compare_sets set_iter name (c1 ++ r :: c2) gas_rows
      field_map ignore_fields report_lines = Raise AttributeError.
Proof.
  intros Hr.
  assert (gas_tuples field_map (list_to_set (default [] ignore_fields)) [r]
          = []) as Hskip by by destruct r.
  assert (gas_set field_map (list_to_set (default [] ignore_fields))
            (g1 ++ r :: g2)
          = gas_set field_map (list_to_set (default [] ignore_fields))
              (g1 ++ g2)) as Hgas.
  { unfold gas_set. change (r :: g2) with ([r] ++ g2).
    by rewrite !gas_tuples_app, Hskip. }
  assert (csv_set field_map (list_to_set (default [] ignore_fields))
            (c1 ++ r :: c2) = Raise AttributeError) as Hcsv.
  { apply (csv_set_not_dict _ _ _ r); [|done].
    apply elem_of_app. right. by left. }
  split_and!; try done.
  - by apply compare_sets_same_sets.
  - intros csv Hok. eexists. by apply compare_sets_ok.
  - by apply compare_sets_raise.
Qed.

Lemma non_dict_entries_witness :
  compare_sets elements "Subjects" [PDict math_csv]
    ([PDict math_gas] ++ PStr "stray" :: [PInt 3])
    subjects_field_map None []
  = Ok ["== Subjects =="; "CSV count: 1, GAS count: 1";
        "MATCH: Data sets are identical (for compared fields)."; ""]
  ∧ compare_sets elements "Subjects" ([PDict math_csv] ++ PStr "stray" :: [])
      [PDict math_gas] subjects_field_map None []
    = Raise AttributeError.
Proof.
  destruct (non_dict_entries elements "Subjects" subjects_field_map None []
              (PStr "stray") [PDict math_csv] [PDict math_gas]
              [PDict math_csv] [] [PDict math_gas] [PInt 3])
    as (_ & _ & Hgas & _ & _ & Hcsv); [reflexivity|].
  split; [|exact Hcsv]. rewrite Hgas. by vm_compute.
Defined.

(** ** Columns outside the field map *)

Lemma forallb_dicts_middle (c1 c2 : list pyval) (d : pydict) :
  forallb isinstance_dict (c1 ++ PDict d :: c2)
  = forallb isinstance_dict c1 && forallb isinstance_dict c2.
Proof. by rewrite forallb_app. Qed.

Lemma gas_tuples_middle field_map ignore_fields c1 c2 d :
  any (dict_values d) = true →
  gas_tuples field_map ignore_fields (c1 ++ PDict d :: c2)
  = gas_tuples field_map ignore_fields c1
    ++ row_to_tuple ignore_fields d field_map false
       :: gas_tuples field_map ignore_fields c2.
Proof.
  intros Ha. change (PDict d :: c2) with ([PDict d] ++ c2).
  by rewrite !gas_tuples_app, gas_tuples_counted.
Qed.

Lemma row_to_tuple_unmapped ignore_fields row mapping col v side :
  Forall (λ kv : string * string, KStr kv.2 ≠ col) mapping →
  row_to_tuple ignore_fields (dict_set row col v) mapping side
  = row_to_tuple ignore_fields row mapping side.
Proof.
  intros Hcol. apply row_to_tuple_ext.
  eapply Forall_impl; [exact Hcol|]. intros [out_key src_key] Hne.
  unfold tuple_entry. simpl in *. by rewrite dict_get_set_ne.
Qed.

(** Without a truthy value before the change the row was not counted, and
    a value written to an unmapped column brings it in. *)
Example unmapped_column_wakes_blank_row :
  csv_tuples study_sessions_field_map ∅ [PDict [(KStr "date", PStr "")]]
  = Ok []
  ∧ csv_tuples study_sessions_field_map ∅
      [PDict (dict_set [(KStr "date", PStr "")] (KStr "date") (PStr "x"))]
    = Ok [[("session_id", NStr ""); ("start_time", NStr "");
           ("end_time", NStr ""); ("duration_minutes", NStr "");
           ("total_tasks", NStr ""); ("correct_tasks", NStr "");
           ("accuracy_percentage", NStr ""); ("notes", NStr "")]].
Proof. split; reflexivity. Qed.

(** C7: the [date] column is not a source key of the StudySessions map,
    and for any table, setting a column that is no source key of the
    field map leaves the tuple of the row as it was; as long as the row
    has a truthy value before and after, both sets and the whole report
    are unchanged too. *)
Theorem unmapped_column_is_ignored
    (set_iter : gset row_tuple → list row_tuple)
    (name : string) (field_map : list (string * string))
    (ignore_fields : option (list string)) (report_lines : list string)
    (row : pydict) (col : pykey) (v : pyval)
    (c1 c2 gas_rows : list pyval) :
  Forall (λ kv : string * string, KStr kv.2 ≠ col) field_map →
  any (dict_values row) = true →
  any (dict_values (dict_set row col v)) = true →
  Forall (λ kv : string * string, KStr kv.2 ≠ KStr "date")
    study_sessions_field_map
  ∧ row_to_tuple (list_to_set (default [] ignore_fields))
      (dict_set row col v) field_map true
    = row_to_tuple (list_to_set (default [] ignore_fields)) row field_map true
  ∧ csv_set field_map (list_to_set (default [] ignore_fields))
      (c1 ++ PDict (dict_set row col v) :: c2)
    = csv_set field_map (list_to_set (default [] ignore_fields))
        (c1 ++ PDict row :: c2)
  ∧ compare_sets set_iter name (c1 ++ PDict (dict_set row col v) :: c2)
      gas_rows field_map ignore_fields report_lines
    = compare_sets set_iter name (c1 ++ PDict row :: c2)
        gas_rows field_map ignore_fields report_lines.
Proof.
  intros Hcol Hrow Hrow'.
  assert (csv_set field_map (list_to_set (default [] ignore_fields))
            (c1 ++ PDict (dict_set row col v) :: c2)
          = csv_set field_map (list_to_set (default [] ignore_fields))
              (c1 ++ PDict row :: c2)) as Hcsv.
  { rewrite !csv_set_dicts, !forallb_dicts_middle. unfold gas_set.
    rewrite !gas_tuples_middle by done.
    by rewrite row_to_tuple_unmapped. }
  split_and!; try done.
  - by apply (bool_decide_unpack _).
  - by apply row_to_tuple_unmapped.
  - by apply compare_sets_same_sets.
Qed.

Lemma unmapped_column_is_ignored_witness :
  row_to_tuple ∅ (dict_set session_row (KStr "date") (PStr "2024-02-02"))
    study_sessions_field_map true
  = row_to_tuple ∅ session_row study_sessions_field_map true
  ∧ compare_sets elements "StudySessions"
      ([] ++ PDict (dict_set session_row (KStr "date") (PStr "2024-02-02"))
          :: [])
      [PDict session_row] study_sessions_field_map None []
    = Ok ["== StudySessions =="; "CSV count: 1, GAS count: 1";
          "MATCH: Data sets are identical (for compared fields)."; ""].
Proof.
  destruct (unmapped_column_is_ignored elements "StudySessions"
              study_sessions_field_map None [] session_row (KStr "date")
              (PStr "2024-02-02") [] [] [PDict session_row])
    as (_ & Htuple & _ & Hcmp);
    [by apply (bool_decide_unpack _) | reflexivity | reflexivity |].
  split; [exact Htuple|]. rewrite Hcmp. by vm_compute.
Defined.

(** ** Missing keys *)

Lemma dict_get_set_missing d (k : pykey) k' :
  dict_lookup d k = None →
  dict_get (dict_set d k (PStr "")) k' (PStr "") = dict_get d k' (PStr "").
Proof.
  intros Hk. unfold dict_get. rewrite dict_lookup_set.
  case_decide; [subst k'; by rewrite Hk | done].
Qed.

(** C9: a source key the row lacks reads as the empty text: the tuple is
    the one of the row with that key set to [''], the entry of such a
    field is [''], or [False] for the field [active], and so on the field
    [active] a row without the key and a row holding [False] there get
    the same entry. *)
Theorem missing_key_is_empty_text (ignore_fields : gset string)
    (field_map : list (string * string)) (row row_false : pydict)
    (out_key src_key : string) (side side' : bool) :
  (out_key, src_key) ∈ field_map →
  out_key ∉ ignore_fields →
  dict_lookup row src_key = None →
  row_to_tuple ignore_fields row field_map side
  = row_to_tuple ignore_fields (dict_set row src_key (PStr "")) field_map side
  ∧ (out_key, if bool_decide (out_key = "active")
              then NBool false else NStr "")
    ∈ row_to_tuple ignore_fields row field_map side
  ∧ (dict_lookup row_false src_key = Some (PBool false) →
     row_to_tuple ignore_fields row [("active", src_key)] side
     = row_to_tuple ignore_fields row_false [("active", src_key)] side').
Proof.
  intros Hin Hign Hmiss. split_and!.
  - apply row_to_tuple_ext, Forall_forall. intros [o s] _.
    unfold tuple_entry. simpl. by rewrite dict_get_set_missing.
  - rewrite row_to_tuple_omap. apply list_elem_of_omap.
    exists (out_key, src_key). split; [done|].
    unfold tuple_entry. simpl.
    rewrite (dict_get_missing _ _ _ Hmiss), bool_decide_eq_false_2 by done.
    by case_bool_decide.
  - intros Hfalse. apply row_to_tuple_ext. repeat constructor.
    unfold tuple_entry. simpl.
    by rewrite (dict_get_missing _ _ _ Hmiss), (dict_get_lookup _ _ _ _ Hfalse).
Qed.

Lemma missing_key_is_empty_text_witness :
  (("active", NBool false) : string * nval)
    ∈ row_to_tuple ∅ session_row subjects_field_map true
  ∧ row_to_tuple ∅ session_row [("active", "active")] true
    = row_to_tuple ∅ blank_row [("active", "active")] false.
Proof.
  destruct (missing_key_is_empty_text ∅ subjects_field_map session_row
              blank_row "active" "active" true false)
    as (_ & Hentry & Hsame);
    [by apply (bool_decide_unpack _) | by apply (bool_decide_unpack _)
    | reflexivity |].
  split; [exact Hentry | by apply Hsame].
Defined.

(** ** The report *)

Lemma elem_of_map {A B} (f : A → B) (l : list A) (y : B) :
  y ∈ map f l ↔ ∃ x, y = f x ∧ x ∈ l.
Proof.
  rewrite list_elem_of_In, in_map_iff. setoid_rewrite list_elem_of_In.
  split; intros (x & ? & ?); by exists x.
Qed.

Lemma elem_of_map_2 {A B} (f : A → B) (l : list A) (x : A) :
  x ∈ l → f x ∈ map f l.
Proof. intros Hin. apply elem_of_map. by exists x. Qed.

Lemma render_Match_inv ln : render ln = render Match → ln = Match.
Proof. destruct ln; simpl; try done; discriminate. Qed.

Lemma differences_empty (csv gas : gset row_tuple) :
  csv ∖ gas = ∅ ∧ gas ∖ csv = ∅ ↔ csv = gas.
Proof.
  split.
  - intros [Hc Hg]. apply set_eq. intros t.
    destruct (decide (t ∈ csv)) as [Hin|Hin], (decide (t ∈ gas)) as [Hin'|Hin'];
      try tauto; exfalso.
    + apply (not_elem_of_empty (C:=gset row_tuple) t). rewrite <- Hc.
      by apply elem_of_difference.
    + apply (not_elem_of_empty (C:=gset row_tuple) t). rewrite <- Hg.
      by apply elem_of_difference.
  - intros ->. split; apply set_eq; intros t;
      rewrite elem_of_difference, elem_of_empty; tauto.
Qed.

Section Report.

Variable set_iter : gset row_tuple → list row_tuple.
Hypothesis set_iter_perm : ∀ s, set_iter s ≡ₚ elements s.


Lemma Match_in_report name csv gas :
  render Match ∈ map render (report set_iter name csv gas) ↔ csv = gas.
Proof.
  rewrite <- differences_empty. unfold report. split.
  - intros Hin. apply elem_of_map in Hin as (ln & Hln & Hin).
    symmetry in Hln. apply render_Match_inv in Hln as ->.
    do 2 case_bool_decide; try done; simpl in Hin;
      repeat (apply elem_of_cons in Hin as [Hin|Hin]; [done|]);
      by apply elem_of_nil in Hin.
  - intros [-> ->]. rewrite !bool_decide_eq_true_2 by done. simpl.
    do 2 right. by left.
Qed.



End Report.


(** ** Text normalisation *)

Lemma is_space_lower_char c : is_space (lower_char c) = is_space c.
Proof. by destruct c as [[] [] [] [] [] [] [] []]. Qed.

Lemma lower_char_idemp c : lower_char (lower_char c) = lower_char c.
Proof. by destruct c as [[] [] [] [] [] [] [] []]. Qed.

Lemma lower_idemp s : lower (lower s) = lower s.
Proof. induction s as [|c s IH]; simpl; [done|]. by rewrite lower_char_idemp, IH. Qed.

Lemma lstrip_lower s : lstrip (lower s) = lower (lstrip s).
Proof.
  induction s as [|c s IH]; simpl; [done|].
  rewrite is_space_lower_char. by destruct (is_space c).
Qed.

Lemma rstrip_lower s : rstrip (lower s) = lower (rstrip s).
Proof.
  induction s as [|c s IH]; simpl; [done|].
  rewrite IH, is_space_lower_char.
  destruct (rstrip s); simpl; [by destruct (is_space c)|done].
Qed.

Lemma strip_lower s : strip (lower s) = lower (strip s).
Proof. unfold strip. by rewrite lstrip_lower, rstrip_lower. Qed.

Lemma rstrip_idemp s : rstrip (rstrip s) = rstrip s.
Proof.
  induction s as [|c s IH]; simpl; [done|].
  destruct (rstrip s) as [|c' r] eqn:Hr.
  - destruct (is_space c) eqn:Hc; simpl; [done|]. by rewrite Hc.
  - change (rstrip (String c (String c' r))) with
      (match rstrip (String c' r) with
       | EmptyString => if is_space c then EmptyString else String c EmptyString
       | r' => String c r'
       end).
    by rewrite IH.
Qed.

Lemma rstrip_cons_no_space c s :
  is_space c = false → rstrip (String c s) = String c (rstrip s).
Proof. intros Hc. simpl. rewrite Hc. by destruct (rstrip s). Qed.

Lemma lstrip_head s :
  lstrip s = EmptyString
  ∨ ∃ c r, lstrip s = String c r ∧ is_space c = false.
Proof.
  induction s as [|c s IH]; simpl; [by left|].
  destruct (is_space c) eqn:Hc; [done|]. right. by exists c, s.
Qed.

Lemma lstrip_strip s : lstrip (strip s) = strip s.
Proof.
  unfold strip. destruct (lstrip_head s) as [->|(c & r & -> & Hc)]; [done|].
  rewrite rstrip_cons_no_space by done. simpl. by rewrite Hc.
Qed.

Lemma strip_idemp s : strip (strip s) = strip s.
Proof.
  unfold strip at 1. rewrite lstrip_strip. unfold strip. apply rstrip_idemp.
Qed.

Lemma lower_strip_idemp s :
  lower (strip (lower (strip s))) = lower (strip s).
Proof. by rewrite strip_lower, strip_idemp, lower_idemp. Qed.

Lemma lstrip_all_space ws s : all_space ws = true → lstrip (ws +:+ s) = lstrip s.
Proof.
  induction ws as [|c ws IH]; simpl; [done|].
  intros [-> Hws]%andb_prop. by apply IH.
Qed.

Lemma rstrip_all_space ws : all_space ws = true → rstrip ws = EmptyString.
Proof.
  induction ws as [|c ws IH]; simpl; [done|].
  intros [-> Hws]%andb_prop. by rewrite IH.
Qed.

Lemma rstrip_app_all_space s ws :
  all_space ws = true → rstrip (s +:+ ws) = rstrip s.
Proof.
  intros Hws. induction s as [|c s IH]; simpl.
  - by apply rstrip_all_space.
  - by rewrite IH.
Qed.

Lemma lstrip_only_space ws : all_space ws = true → lstrip ws = EmptyString.
Proof.
  induction ws as [|c ws IH]; simpl; [done|].
  intros [-> Hws]%andb_prop. by apply IH.
Qed.

Lemma lstrip_app_all_space s ws :
  all_space ws = true →
  lstrip (s +:+ ws) = lstrip s +:+ ws
  ∨ (lstrip s = EmptyString ∧ lstrip (s +:+ ws) = EmptyString).
Proof.
  intros Hws. induction s as [|c s IH]; simpl.
  - right. split; [done|]. by apply lstrip_only_space.
  - destruct (is_space c); [done|]. by left.
Qed.

Lemma strip_padding ws1 s ws2 :
  all_space ws1 = true → all_space ws2 = true →
  strip (ws1 +:+ s +:+ ws2) = strip s.
Proof.
  intros H1 H2. unfold strip. rewrite lstrip_all_space by done.
  destruct (lstrip_app_all_space s ws2 H2) as [->|[-> ->]]; [|done].
  by apply rstrip_app_all_space.
Qed.

(** ** More on the normalisers *)

Lemma norm_bool_PStr s :
  norm_bool (PStr s) =
    if bool_decide (lower (strip s) ∈ ["true"; "yes"; "1"]) then NBool true
    else if bool_decide (lower (strip s) ∈ ["false"; "no"; "0"; ""])
         then NBool false
         else NStr (lower (strip s)).
Proof. done. Qed.

Lemma is_ascii_lower_char c :
  (nat_of_ascii (lower_char c) <? 128)%nat = (nat_of_ascii c <? 128)%nat.
Proof. by destruct c as [[] [] [] [] [] [] [] []]. Qed.

Lemma is_ascii_lower s : is_ascii (lower s) = is_ascii s.
Proof.
  induction s as [|c s IH]; simpl; [done|].
  by rewrite is_ascii_lower_char, IH.
Qed.

Lemma is_ascii_lstrip s : is_ascii s = true → is_ascii (lstrip s) = true.
Proof.
  induction s as [|c s IH]; simpl; [done|].
  intros [Hc Hs]%andb_prop. destruct (is_space c); [by apply IH|].
  simpl. by rewrite Hc, Hs.
Qed.

Lemma is_ascii_rstrip s : is_ascii s = true → is_ascii (rstrip s) = true.
Proof.
  induction s as [|c s IH]; simpl; [done|].
  intros [Hc Hs]%andb_prop. specialize (IH Hs).
  destruct (rstrip s) as [|c' r].
  - destruct (is_space c); simpl; [done|]. by rewrite Hc.
  - simpl in *. by rewrite Hc, IH.
Qed.

Lemma is_ascii_lower_strip s :
  is_ascii s = true → is_ascii (lower (strip s)) = true.
Proof.
  intros Hs. rewrite is_ascii_lower. unfold strip.
  by apply is_ascii_rstrip, is_ascii_lstrip.
Qed.

Lemma norm_bool_answer_ascii v :
  is_ascii (py_str v) = true →
  is_ascii (py_str (nval_as_py (norm_bool v))) = true.
Proof.
  intros Hv.
  destruct (isinstance_bool v) eqn:Hb; [by destruct v as [|[]| | | | |]|].
  destruct (is_None v) eqn:Hn; [by destruct v|].
  rewrite (norm_bool_text v Hb Hn). cbv zeta.
  case_bool_decide; [done|]. case_bool_decide; [done|].
  by apply is_ascii_lower_strip.
Qed.

(** X1: on a value whose text is ASCII, [norm_bool] is idempotent: its
    answer is again ASCII, and fed with that answer it gives it back, so
    a value that was normalised once is stable. *)
Theorem norm_bool_idempotent (v : pyval) :
  is_ascii (py_str v) = true →
  is_ascii (py_str (nval_as_py (norm_bool v))) = true
  ∧ norm_bool (nval_as_py (norm_bool v)) = norm_bool v.
Proof.
  intros Hv. split; [by apply norm_bool_answer_ascii|].
  destruct (isinstance_bool v) eqn:Hb; [by destruct v|].
  destruct (is_None v) eqn:Hn; [by destruct v|].
  rewrite (norm_bool_text v Hb Hn). cbv zeta.
  case_bool_decide as Ht; [done|]. case_bool_decide as Hf; [done|].
  unfold nval_as_py. rewrite norm_bool_PStr, lower_strip_idemp.
  by rewrite !bool_decide_eq_false_2.
Qed.

Lemma norm_bool_idempotent_witness :
  is_ascii (py_str (nval_as_py (norm_bool (PStr " Maybe ")))) = true
  ∧ norm_bool (nval_as_py (norm_bool (PStr " Maybe ")))
    = norm_bool (PStr " Maybe ").
Proof. apply (norm_bool_idempotent (PStr " Maybe ")). reflexivity. Defined.

(** X2: ASCII whitespace around an ASCII text does not change what
    [norm_bool] makes of it. *)
Theorem norm_bool_ignores_padding (ws1 s ws2 : string) :
  is_ascii s = true →
  all_space ws1 = true →
  all_space ws2 = true →
  norm_bool (PStr (ws1 +:+ s +:+ ws2)) = norm_bool (PStr s).
Proof.
  intros _ H1 H2. by rewrite !norm_bool_PStr, strip_padding.
Qed.

Lemma norm_bool_ignores_padding_witness :
  norm_bool (PStr ((" " +:+ chr 9) +:+ "No" +:+ (chr 13 +:+ chr 10)))
  = norm_bool (PStr "No").
Proof.
  apply (norm_bool_ignores_padding (" " +:+ chr 9) "No" (chr 13 +:+ chr 10));
    reflexivity.
Defined.

(** X3: the case of an ASCII text does not change what [norm_bool] makes
    of it: the text and its lower-cased form get the same answer. *)
Theorem norm_bool_ignores_case (s : string) :
  is_ascii s = true →
  norm_bool (PStr (lower s)) = norm_bool (PStr s).
Proof. intros _. by rewrite !norm_bool_PStr, strip_lower, lower_idemp. Qed.

Lemma norm_bool_ignores_case_witness :
  norm_bool (PStr (lower "YeS")) = norm_bool (PStr "YeS").
Proof. apply (norm_bool_ignores_case "YeS"). reflexivity. Defined.

Lemma norm_bool_NStr_inv v s :
  norm_bool v = NStr s →
  (s ∉ bool_words) ∧ strip s = s ∧ lower s = s.
Proof.
  intros Hs.
  destruct (isinstance_bool v) eqn:Hb; [by destruct v|].
  destruct (is_None v) eqn:Hn; [by destruct v|].
  rewrite (norm_bool_text v Hb Hn) in Hs. simpl in Hs.
  case_bool_decide as Ht; [done|]. case_bool_decide as Hf; [done|].
  injection Hs as <-. split_and!.
  - unfold bool_words. intros Hin. apply list_elem_of_In in Hin.
    rewrite list_elem_of_In in Ht, Hf. simpl in *. tauto.
  - by rewrite <- strip_lower, strip_idemp.
  - apply lower_idemp.
Qed.

(** X4: when [norm_bool] answers a value whose text is ASCII with a text,
    that text is ASCII, none of the words it knows, has no whitespace at
    either end and no upper-case letter. *)
Theorem norm_bool_text_answer (v : pyval) (s : string) :
  is_ascii (py_str v) = true →
  norm_bool v = NStr s →
  is_ascii s = true ∧ (s ∉ bool_words) ∧ strip s = s ∧ lower s = s.
Proof.
  intros Hv Hs. split; [|by apply (norm_bool_NStr_inv v)].
  pose proof (norm_bool_answer_ascii v Hv) as Ha. by rewrite Hs in Ha.
Qed.

Lemma norm_bool_text_answer_witness :
  is_ascii "n/a" = true
  ∧ ("n/a" ∉ bool_words) ∧ strip "n/a" = "n/a" ∧ lower "n/a" = "n/a".
Proof.
  apply (norm_bool_text_answer (PStr " N/A ") "n/a"); reflexivity.
Defined.

(** ** The shape of a tuple *)

Lemma tuple_entry_key ignore_fields row kv e :
  tuple_entry ignore_fields row kv = Some e →
  e.1 = kv.1 ∧ kv.1 ∉ ignore_fields.
Proof.
  unfold tuple_entry. case_bool_decide; [done|]. by intros [= <-].
Qed.

(** X5: the keys of a tuple are the output keys of the field map that
    are not ignored, in the order of the map, whatever the row holds: all
    tuples of one comparison have the same keys at the same places. *)
Theorem row_to_tuple_keys (ignore_fields : gset string) (row : pydict)
    (mapping : list (string * string)) (is_csv : bool) :
  (row_to_tuple ignore_fields row mapping is_csv).*1
  = filter (λ k, k ∉ ignore_fields) (mapping.*1).
Proof.
  rewrite row_to_tuple_omap.
  induction mapping as [|kv mapping IH]; [done|].
  rewrite fmap_cons, filter_cons. cbn. unfold tuple_entry at 1.
  case_bool_decide as Hign.
  - rewrite decide_False by (by intros ?). exact IH.
  - rewrite decide_True by done. cbn. by rewrite <- IH.
Qed.

(** X6: in a tuple every field but [active] holds a text, never a
    boolean; and when [active] holds a text it is none of the words that
    stand for a boolean. *)
Theorem row_to_tuple_entries (ignore_fields : gset string) (row : pydict)
    (mapping : list (string * string)) (is_csv : bool)
    (k : string) (v : nval) :
  (k, v) ∈ row_to_tuple ignore_fields row mapping is_csv →
  (k ≠ "active" → ∃ s, v = NStr s)
  ∧ (k = "active" → ∀ s, v = NStr s → s ∉ bool_words).
Proof.
  rewrite row_to_tuple_omap, list_elem_of_omap.
  intros ([out_key src_key] & _ & Hentry). unfold tuple_entry in Hentry.
  simpl in Hentry. case_bool_decide; [done|].
  injection Hentry as -> <-. split.
  - intros Hk. rewrite bool_decide_eq_false_2 by done.
    unfold norm_str. destruct (dict_get _ _ _); by eexists.
  - intros Hk s Hs. rewrite bool_decide_eq_true_2 in Hs by done.
    by destruct (norm_bool_NStr_inv _ _ Hs).
Qed.

Lemma row_to_tuple_entries_witness :
  (("icon" : string) ≠ "active" → ∃ s, NStr "7" = NStr s)
  ∧ (("icon" : string) = "active" → ∀ s, NStr "7" = NStr s → s ∉ bool_words).
Proof.
  apply (row_to_tuple_entries ∅ math_csv subjects_field_map true "icon"
           (NStr "7")).
  by apply (bool_decide_unpack _).
Defined.

(** X7: ignoring fields is the same as leaving them out of the field
    map. *)
Theorem ignore_is_filtering (ignore_fields : gset string) (row : pydict)
    (mapping : list (string * string)) (is_csv : bool) :
  row_to_tuple ignore_fields row mapping is_csv
  = row_to_tuple ∅ row
      (filter (λ kv : string * string, kv.1 ∉ ignore_fields) mapping) is_csv.
Proof.
  rewrite !row_to_tuple_omap.
  induction mapping as [|kv mapping IH]; [done|].
  rewrite filter_cons. cbn. unfold tuple_entry at 1.
  case_bool_decide as Hign.
  - rewrite decide_False by (by intros ?). exact IH.
  - rewrite decide_True by done. cbn. unfold tuple_entry at 2.
    rewrite (bool_decide_eq_false_2 (kv.1 ∈ (∅ : gset string)))
      by apply not_elem_of_empty.
    cbn in IH. by rewrite IH.
Qed.

(** ** What is in a comparison set *)

(** X8: a tuple is in the set of a side exactly when it is the tuple of
    some row of that side that is a dict with a truthy value. *)
Theorem comparison_set_members (field_map : list (string * string))
    (ignore_fields : gset string) (csv_rows gas_rows : list pyval)
    (csv : gset row_tuple) (t : row_tuple) :
  csv_set field_map ignore_fields csv_rows = Ok csv →
  (t ∈ csv ↔
   ∃ d, PDict d ∈ csv_rows ∧ any (dict_values d) = true
        ∧ t = row_to_tuple ignore_fields d field_map true)
  ∧ (t ∈ gas_set field_map ignore_fields gas_rows ↔
     ∃ d, PDict d ∈ gas_rows ∧ any (dict_values d) = true
          ∧ t = row_to_tuple ignore_fields d field_map false).
Proof.
  intros Hcsv. split; [|apply elem_of_gas_set].
  rewrite csv_set_dicts in Hcsv.
  destruct (forallb isinstance_dict csv_rows); [|done].
  injection Hcsv as <-. rewrite elem_of_gas_set.
  by setoid_rewrite row_to_tuple_side.
Qed.

Lemma comparison_set_members_witness :
  (row_to_tuple ∅ math_csv subjects_field_map true
   ∈ (list_to_set [row_to_tuple ∅ math_csv subjects_field_map true]
      : gset row_tuple) ↔
   ∃ d, PDict d ∈ [PDict blank_row; PDict math_csv]
        ∧ any (dict_values d) = true
        ∧ row_to_tuple ∅ math_csv subjects_field_map true
          = row_to_tuple ∅ d subjects_field_map true)
  ∧ (row_to_tuple ∅ math_csv subjects_field_map true
     ∈ gas_set subjects_field_map ∅ [PInt 3] ↔
     ∃ d, PDict d ∈ [PInt 3] ∧ any (dict_values d) = true
          ∧ row_to_tuple ∅ math_csv subjects_field_map true
            = row_to_tuple ∅ d subjects_field_map false).
Proof.
  apply (comparison_set_members subjects_field_map ∅
           [PDict blank_row; PDict math_csv] [PInt 3]).
  reflexivity.
Defined.

Lemma size_list_to_set_le (ts : list row_tuple) :
  (size (list_to_set ts : gset row_tuple) ≤ length ts)%nat.
Proof.
  induction ts as [|t ts IH].
  - by rewrite list_to_set_nil, size_empty.
  - rewrite list_to_set_cons, size_union_alt, size_singleton. cbn [length].
    pose proof (subseteq_size (list_to_set ts ∖ {[t]} : gset row_tuple)
                  (list_to_set ts)) as Hle.
    specialize (Hle ltac:(apply subseteq_difference_l; done)). lia.
Qed.

Lemma length_gas_tuples field_map ignore_fields rows :
  length (gas_tuples field_map ignore_fields rows)
  = length (filter (λ r, counted r = true) rows).
Proof.
  induction rows as [|r rows IH]; [done|].
  rewrite filter_cons. destruct (decide (counted r = true)) as [Hc|Hc].
  - destruct r as [| | | | | |d]; try done. simpl in *. rewrite Hc.
    simpl. by rewrite IH.
  - destruct r as [| | | | | |d]; try exact IH. simpl in *.
    by destruct (any (dict_values d)).
Qed.

(** X9: the count reported for a side never exceeds the number of its
    rows that are dicts with a truthy value, and so never the number of
    its rows. *)
Theorem counts_bounded (field_map : list (string * string))
    (ignore_fields : gset string) (csv_rows gas_rows : list pyval)
    (csv : gset row_tuple) :
  csv_set field_map ignore_fields csv_rows = Ok csv →
  (size csv ≤ length (filter (λ r, counted r = true) csv_rows))%nat
  ∧ (length (filter (λ r, counted r = true) csv_rows) ≤ length csv_rows)%nat
  ∧ (size (gas_set field_map ignore_fields gas_rows)
     ≤ length (filter (λ r, counted r = true) gas_rows))%nat
  ∧ (length (filter (λ r, counted r = true) gas_rows) ≤ length gas_rows)%nat.
Proof.
  intros Hcsv. rewrite csv_set_dicts in Hcsv.
  destruct (forallb isinstance_dict csv_rows); [|done].
  injection Hcsv as <-. unfold gas_set.
  rewrite <- !(length_gas_tuples field_map ignore_fields).
  split_and!; try apply size_list_to_set_le;
    rewrite length_gas_tuples; apply length_filter.
Qed.

Lemma counts_bounded_witness :
  (size (list_to_set [row_to_tuple ∅ math_csv subjects_field_map true]
         : gset row_tuple)
   ≤ length (filter (λ r, counted r = true)
               [PDict blank_row; PDict math_csv]))%nat
  ∧ (length (filter (λ r, counted r = true)
               [PDict blank_row; PDict math_csv])
     ≤ length [PDict blank_row; PDict math_csv])%nat
  ∧ (size (gas_set subjects_field_map ∅ [PStr "x"; PDict math_gas])
     ≤ length (filter (λ r, counted r = true) [PStr "x"; PDict math_gas]))%nat
  ∧ (length (filter (λ r, counted r = true) [PStr "x"; PDict math_gas])
     ≤ length [PStr "x"; PDict math_gas])%nat.
Proof.
  apply (counts_bounded subjects_field_map ∅
           [PDict blank_row; PDict math_csv] [PStr "x"; PDict math_gas]
           (list_to_set [row_to_tuple ∅ math_csv subjects_field_map true])).
  reflexivity.
Defined.

(** ** Whole comparisons *)

Lemma csv_set_all_dicts field_map ignore_fields rows :
  Forall (λ r, isinstance_dict r = true) rows →
  csv_set field_map ignore_fields rows
  = Ok (gas_set field_map ignore_fields rows).
Proof.
  intros Hall. rewrite csv_set_dicts.
  assert (forallb isinstance_dict rows = true) as ->; [|done].
  apply forallb_forall. intros r Hr%list_elem_of_In.
  by apply (proj1 (Forall_forall _ _) Hall).
Qed.

Lemma csv_set_some_not_dict field_map ignore_fields rows :
  Exists (λ r, isinstance_dict r = false) rows →
  csv_set field_map ignore_fields rows = Raise AttributeError.
Proof.
  intros (r & Hin & Hr)%Exists_exists. by apply (csv_set_not_dict _ _ _ r).
Qed.

Lemma all_dicts_or_not rows :
  Forall (λ r, isinstance_dict r = true) rows
  ∨ Exists (λ r, isinstance_dict r = false) rows.
Proof.
  induction rows as [|r rows [IH|IH]].
  - left. constructor.
  - destruct (isinstance_dict r) eqn:Hr.
    + left. by constructor.
    + right. by left.
  - right. by right.
Qed.

(** X10: rearranging the rows of either side changes neither set, and
    so neither the counts, nor the verdict, nor the size of a difference,
    nor whether the call raises: the two reports agree line by line up
    to the samples shown, which hang on the order the rows came in. *)
Theorem row_order_changes_samples_only
    (set_iter set_iter' : gset row_tuple → list row_tuple)
    (name : string) (csv_rows csv_rows' gas_rows gas_rows' : list pyval)
    (field_map : list (string * string))
    (ignore_fields : option (list string)) (report_lines : list string) :
  csv_rows ≡ₚ csv_rows' →
  gas_rows ≡ₚ gas_rows' →
  csv_set field_map (list_to_set (default [] ignore_fields)) csv_rows
  = csv_set field_map (list_to_set (default [] ignore_fields)) csv_rows'
  ∧ gas_set field_map (list_to_set (default [] ignore_fields)) gas_rows
    = gas_set field_map (list_to_set (default [] ignore_fields)) gas_rows'
  ∧ same_report_but_samples report_lines
      (compare_sets set_iter name csv_rows gas_rows field_map ignore_fields
         report_lines)
      (compare_sets set_iter' name csv_rows' gas_rows' field_map
         ignore_fields report_lines).
Proof.
  intros Hc Hg.
  assert (csv_set field_map (list_to_set (default [] ignore_fields)) csv_rows
          = csv_set field_map (list_to_set (default [] ignore_fields))
              csv_rows') as Hcsv.
  { apply csv_set_same_rows; intros r _; by rewrite Hc. }
  assert (gas_set field_map (list_to_set (default [] ignore_fields)) gas_rows
          = gas_set field_map (list_to_set (default [] ignore_fields))
              gas_rows') as Hgas.
  { apply gas_set_same_rows; intros r _; by rewrite Hg. }
  split_and!; try done. by apply compare_sets_same_but_samples.
Qed.

Lemma row_order_changes_samples_only_witness :
  csv_set subjects_field_map (list_to_set (default [] None))
    [PDict math_csv; PDict physics_csv]
  = csv_set subjects_field_map (list_to_set (default [] None))
      [PDict physics_csv; PDict math_csv]
  ∧ gas_set subjects_field_map (list_to_set (default [] None))
      [PInt 1; PDict blank_row]
    = gas_set subjects_field_map (list_to_set (default [] None))
        [PDict blank_row; PInt 1]
  ∧ same_report_but_samples []
      (compare_sets elements "Subjects" [PDict math_csv; PDict physics_csv]
         [PInt 1; PDict blank_row] subjects_field_map None [])
      (compare_sets (λ s, reverse (elements s)) "Subjects"
         [PDict physics_csv; PDict math_csv]
         [PDict blank_row; PInt 1] subjects_field_map None []).
Proof.
  apply (row_order_changes_samples_only elements (λ s, reverse (elements s))
           "Subjects" [PDict math_csv; PDict physics_csv]
           [PDict physics_csv; PDict math_csv]
           [PInt 1; PDict blank_row] [PDict blank_row; PInt 1]);
    apply perm_swap.
Defined.

(** Two walks of the same sets do show other samples. *)
Example walks_show_other_samples :
  compare_sets elements "Subjects" [PDict math_csv; PDict physics_csv] []
    subjects_field_map None []
  ≠ compare_sets (λ s, reverse (elements s)) "Subjects"
      [PDict physics_csv; PDict math_csv] [] subjects_field_map None [].
Proof. vm_compute. intros [= H]. Qed.

(** X11: a comparison raises exactly when some CSV row is not a dict,
    whatever the JSON rows are, and then it is the attribute error; it
    comes back with the earlier lines and its own appended exactly when
    every CSV row is a dict. *)
Theorem compare_sets_raises_iff (set_iter : gset row_tuple → list row_tuple)
    (name : string) (csv_rows gas_rows : list pyval)
    (field_map : list (string * string))
    (ignore_fields : option (list string)) (report_lines : list string) :
  (compare_sets set_iter name csv_rows gas_rows field_map ignore_fields
     report_lines = Raise AttributeError
   ↔ Exists (λ r, isinstance_dict r = false) csv_rows)
  ∧ ((∃ appended,
        compare_sets set_iter name csv_rows gas_rows field_map ignore_fields
          report_lines = Ok (report_lines ++ appended))
     ↔ Forall (λ r, isinstance_dict r = true) csv_rows).
Proof.
  destruct (all_dicts_or_not csv_rows) as [Hall|Hsome].
  - pose proof (compare_sets_ok set_iter name csv_rows gas_rows field_map
                  ignore_fields report_lines _
                  (csv_set_all_dicts field_map _ _ Hall)) as Hok.
    split; split; try done.
    + by rewrite Hok.
    + intros Hex. apply Exists_exists in Hex as (r & Hin & Hr).
      apply (proj1 (Forall_forall _ _) Hall) in Hin. congruence.
    + intros _. by eexists.
  - pose proof (compare_sets_raise set_iter name csv_rows gas_rows field_map
                  ignore_fields report_lines _
                  (csv_set_some_not_dict field_map _ _ Hsome)) as Hraise.
    split; split; try done.
    + intros [appended Hok]. congruence.
    + intros Hall. apply Exists_exists in Hsome as (r & Hin & Hr).
      apply (proj1 (Forall_forall _ _) Hall) in Hin. congruence.
Qed.

(** X12: when every CSV row is a dict and the JSON side has the same
    dicts with a truthy value (in any order, any number of times, among
    any blank or stray entries), the comparison appends the header, the
    two equal counts, the [MATCH] line and the empty line, and nothing
    else. *)
Theorem same_rows_match (set_iter : gset row_tuple → list row_tuple)
    (name : string) (csv_rows gas_rows : list pyval)
    (field_map : list (string * string))
    (ignore_fields : option (list string)) (report_lines : list string) :
  Forall (λ r, isinstance_dict r = true) csv_rows →
  (∀ r, counted r = true → r ∈ csv_rows ↔ r ∈ gas_rows) →
  compare_sets set_iter name csv_rows gas_rows field_map ignore_fields
    report_lines
  = Ok (report_lines
        ++ [render (Header name);
            render (Counts
                      (size (gas_set field_map
                               (list_to_set (default [] ignore_fields))
                               gas_rows))
                      (size (gas_set field_map
                               (list_to_set (default [] ignore_fields))
                               gas_rows)));
            render Match; ""]).
Proof.
  intros Hall Hsame.
  rewrite (compare_sets_ok _ _ _ _ _ _ _ _
             (csv_set_all_dicts field_map _ _ Hall)).
  rewrite (gas_set_same_rows _ _ _ _ Hsame). unfold report.
  destruct (differences_empty
              (gas_set field_map (list_to_set (default [] ignore_fields))
                 gas_rows)
              (gas_set field_map (list_to_set (default [] ignore_fields))
                 gas_rows)) as [_ Hd].
  destruct (Hd eq_refl) as [-> _].
  by rewrite !bool_decide_eq_true_2.
Qed.

Lemma same_rows_match_witness :
  compare_sets elements "Subjects" [PDict math_csv; PDict blank_row]
    [PInt 1; PDict math_csv; PDict math_csv] subjects_field_map None ["x"]
  = Ok (["x"]
        ++ [render (Header "Subjects");
            render (Counts
                      (size (gas_set subjects_field_map
                               (list_to_set (default [] None))
                               [PInt 1; PDict math_csv; PDict math_csv]))
                      (size (gas_set subjects_field_map
                               (list_to_set (default [] None))
                               [PInt 1; PDict math_csv; PDict math_csv])));
            render Match; ""]).
Proof.
  apply (same_rows_match elements "Subjects" [PDict math_csv; PDict blank_row]
           [PInt 1; PDict math_csv; PDict math_csv] subjects_field_map None
           ["x"]).
  - by apply (bool_decide_unpack _).
  - intros r Hr. rewrite !list_elem_of_In. simpl.
    split; intros Hin; destruct_or!; subst; try done; auto.
Defined.

(** X13: a comparison only appends: the earlier lines stay in front, then
    come the header, the counts, one or two verdict lines and the empty
    line; there are two verdict lines exactly when each side has a tuple
    the other lacks. *)
Theorem compare_sets_block (set_iter : gset row_tuple → list row_tuple)
    (name : string) (csv_rows gas_rows : list pyval)
    (field_map : list (string * string))
    (ignore_fields : option (list string)) (report_lines : list string)
    (csv : gset row_tuple) :
  csv_set field_map (list_to_set (default [] ignore_fields)) csv_rows
  = Ok csv →
  ∃ gas verdict,
    gas = gas_set field_map (list_to_set (default [] ignore_fields)) gas_rows
    ∧ compare_sets set_iter name csv_rows gas_rows field_map ignore_fields
        report_lines
      = Ok (report_lines
            ++ render (Header name) :: render (Counts (size csv) (size gas))
               :: verdict ++ [""])
    ∧ (1 ≤ length verdict ≤ 2)%nat
    ∧ (length verdict = 2%nat ↔ csv ∖ gas ≠ ∅ ∧ gas ∖ csv ≠ ∅).
Proof.
  intros Hcsv. rewrite (compare_sets_ok _ _ _ _ _ _ _ _ Hcsv).
  eexists _, _. split; [reflexivity|]. unfold report.
  rewrite !map_app. simpl. split; [reflexivity|].
  rewrite length_map.
  do 2 case_bool_decide; simpl; split; try lia; split; try lia;
    try tauto; by intros [? ?].
Qed.

Lemma compare_sets_block_witness :
  ∃ gas verdict,
    gas = gas_set subjects_field_map (list_to_set (default [] None))
            [PDict blank_row]
    ∧ compare_sets elements "Subjects" [PDict math_csv] [PDict blank_row]
        subjects_field_map None ["x"]
      = Ok (["x"]
            ++ render (Header "Subjects")
               :: render (Counts
                            (size (list_to_set
                                     [row_to_tuple ∅ math_csv
                                        subjects_field_map true]
                                   : gset row_tuple))
                            (size gas))
               :: verdict ++ [""])
    ∧ (1 ≤ length verdict ≤ 2)%nat
    ∧ (length verdict = 2%nat ↔
       (list_to_set [row_to_tuple ∅ math_csv subjects_field_map true]
        : gset row_tuple) ∖ gas ≠ ∅
       ∧ gas ∖ list_to_set [row_to_tuple ∅ math_csv subjects_field_map true]
         ≠ ∅).
Proof.
  apply (compare_sets_block elements "Subjects" [PDict math_csv]
           [PDict blank_row] subjects_field_map None ["x"]
           (list_to_set [row_to_tuple ∅ math_csv subjects_field_map true])).
  reflexivity.
Defined.

(** X14: the verdict does not depend on which input is called CSV and
    which JSON: with the two lists of dicts swapped, the [MATCH] line is
    there or not as before, and the counts line holds the same two counts
    the other way round. *)
Theorem verdict_is_symmetric (set_iter : gset row_tuple → list row_tuple)
    (name : string) (rows1 rows2 : list pyval)
    (field_map : list (string * string))
    (ignore_fields : option (list string)) (report_lines : list string) :
  Forall (λ r, isinstance_dict r = true) rows1 →
  Forall (λ r, isinstance_dict r = true) rows2 →
  ∃ n1 n2 lines12 lines21,
    compare_sets set_iter name rows1 rows2 field_map ignore_fields
      report_lines = Ok (report_lines ++ lines12)
    ∧ compare_sets set_iter name rows2 rows1 field_map ignore_fields
        report_lines = Ok (report_lines ++ lines21)
    ∧ (render Match ∈ lines12 ↔ render Match ∈ lines21)
    ∧ render (Counts n1 n2) ∈ lines12
    ∧ render (Counts n2 n1) ∈ lines21.
Proof.
  intros H1 H2.
  rewrite (compare_sets_ok _ _ _ _ _ _ _ _
             (csv_set_all_dicts field_map _ _ H1)).
  rewrite (compare_sets_ok _ _ _ _ _ _ _ _
             (csv_set_all_dicts field_map _ _ H2)).
  eexists _, _, _, _. split; [reflexivity|]. split; [reflexivity|].
  split_and!.
  - rewrite !Match_in_report. split; by intros ->.
  - apply (elem_of_map_2 render). unfold report. right. by left.
  - apply (elem_of_map_2 render). unfold report. right. by left.
Qed.

Lemma verdict_is_symmetric_witness :
  ∃ n1 n2 lines12 lines21,
    compare_sets elements "Subjects" [PDict math_csv] [] subjects_field_map
      None [] = Ok ([] ++ lines12)
    ∧ compare_sets elements "Subjects" [] [PDict math_csv] subjects_field_map
        None [] = Ok ([] ++ lines21)
    ∧ (render Match ∈ lines12 ↔ render Match ∈ lines21)
    ∧ render (Counts n1 n2) ∈ lines12
    ∧ render (Counts n2 n1) ∈ lines21.
Proof.
  apply (verdict_is_symmetric elements "Subjects" [PDict math_csv] []
           subjects_field_map None []);
    by apply (bool_decide_unpack _).
Defined.




(** ** More on the loader *)

(** X16: the loader makes up no rows: what it returns is empty, or the
    root list itself, or the list the root dict holds under one of the
    recognised keys. *)
Theorem loader_returns_stored_list (data : pyval) :
  load_json_first_array data = []
  ∨ data = PList (load_json_first_array data)
  ∨ ∃ d k, data = PDict d ∧ k ∈ array_keys
           ∧ dict_lookup d (KStr k) = Some (PList (load_json_first_array data)).
Proof.
  unfold load_json_first_array.
  destruct (first_array array_keys data) as [l|] eqn:Hf.
  - apply first_array_Some in Hf as (pre & k & post & d & Hk & -> & Hl & _).
    right. right. exists d, k. split_and!; try done.
    rewrite Hk. apply elem_of_app. right. by left.
  - destruct data; auto.
Qed.

Lemma first_array_other_key keys d k v :
  k ∉ (KStr <$> keys) →
  first_array keys (PDict (dict_set d k v)) = first_array keys (PDict d).
Proof.
  induction keys as [|key keys IH]; [done|].
  rewrite fmap_cons, not_elem_of_cons. intros [Hne Hk]. simpl.
  rewrite dict_lookup_set, decide_False by done. by rewrite IH.
Qed.

(** X17: a key that is none of the recognised five plays no part: adding
    it to the root dict, or changing what it holds, leaves the loaded
    list as it was. *)
Theorem loader_ignores_other_keys (d : pydict) (k : pykey) (v : pyval) :
  k ∉ (KStr <$> array_keys) →
  load_json_first_array (PDict (dict_set d k v))
  = load_json_first_array (PDict d).
Proof.
  intros Hk. unfold load_json_first_array.
  by rewrite first_array_other_key.
Qed.

Lemma loader_ignores_other_keys_witness :
  load_json_first_array
    (PDict (dict_set [(KStr "tasks", PList [PInt 1])] (KStr "rows")
              (PList [PInt 2])))
  = load_json_first_array (PDict [(KStr "tasks", PList [PInt 1])]).
Proof.
  apply (loader_ignores_other_keys [(KStr "tasks", PList [PInt 1])]
           (KStr "rows") (PList [PInt 2])).
  by apply (bool_decide_unpack _).
Defined.

(** ** The whole run *)

Lemma compare_sets_appends set_iter name csv_rows gas_rows field_map
    ignore_fields report_lines :
  compare_sets set_iter name csv_rows gas_rows field_map ignore_fields
    report_lines
  = block ← compare_sets set_iter name csv_rows gas_rows field_map
              ignore_fields [];
    mret (report_lines ++ block).
Proof.
  unfold compare_sets.
  by destruct (csv_set field_map _ csv_rows).
Qed.

Lemma all_dicts_true rows :
  forallb isinstance_dict rows = true
  ↔ Forall (λ r, isinstance_dict r = true) rows.
Proof.
  rewrite forallb_forall, Forall_forall.
  by setoid_rewrite list_elem_of_In.
Qed.

Lemma all_dicts_false rows :
  forallb isinstance_dict rows = false
  ↔ Exists (λ r, isinstance_dict r = false) rows.
Proof.
  induction rows as [|r rows IH]; simpl.
  - split; [done|]. by intros ?%Exists_nil.
  - rewrite Exists_cons, <- IH.
    destruct (isinstance_dict r); simpl; intuition congruence.
Qed.

Lemma run_blocks set_iter subjects categories studytasks studysessions :
  run set_iter subjects categories studytasks studysessions
  = b1 ← compare_sets set_iter "Subjects" (csv_rows_of subjects)
           (load_json_first_array (gas_doc_of subjects))
           subjects_field_map None [];
    b2 ← compare_sets set_iter "Categories" (csv_rows_of categories)
           (load_json_first_array (gas_doc_of categories))
           categories_field_map None [];
    b3 ← compare_sets set_iter "StudyTasks" (csv_rows_of studytasks)
           (load_json_first_array (gas_doc_of studytasks))
           study_tasks_field_map None [];
    b4 ← compare_sets set_iter "StudySessions" (csv_rows_of studysessions)
           (load_json_first_array (gas_doc_of studysessions))
           study_sessions_field_map None [];
    mret (b1 ++ b2 ++ b3 ++ b4).
Proof.
  unfold run.
  destruct (compare_sets set_iter "Subjects" _ _ _ _ []) as [b1|] eqn:H1;
    simpl; [|done].
  rewrite (compare_sets_appends _ "Categories" _ _ _ _ b1).
  destruct (compare_sets set_iter "Categories" _ _ _ _ []) as [b2|] eqn:H2;
    simpl; [|done].
  rewrite (compare_sets_appends _ "StudyTasks" _ _ _ _ (b1 ++ b2)).
  destruct (compare_sets set_iter "StudyTasks" _ _ _ _ []) as [b3|] eqn:H3;
    simpl; [|done].
  rewrite (compare_sets_appends _ "StudySessions" _ _ _ _ ((b1 ++ b2) ++ b3)).
  destruct (compare_sets set_iter "StudySessions" _ _ _ _ []) as [b4|] eqn:H4;
    simpl; [|done].
  by rewrite <- !app_assoc.
Qed.

(** X18: the report of a run is the four blocks one after the other,
    each block being what the comparison of its table appends when it
    starts from no lines: no table's block depends on another table. *)
Theorem run_is_concatenation (set_iter : gset row_tuple → list row_tuple)
    (subjects categories studytasks studysessions : table_input) :
  run set_iter subjects categories studytasks studysessions
  = b1 ← compare_sets set_iter "Subjects" (csv_rows_of subjects)
           (load_json_first_array (gas_doc_of subjects))
           subjects_field_map None [];
    b2 ← compare_sets set_iter "Categories" (csv_rows_of categories)
           (load_json_first_array (gas_doc_of categories))
           categories_field_map None [];
    b3 ← compare_sets set_iter "StudyTasks" (csv_rows_of studytasks)
           (load_json_first_array (gas_doc_of studytasks))
           study_tasks_field_map None [];
    b4 ← compare_sets set_iter "StudySessions" (csv_rows_of studysessions)
           (load_json_first_array (gas_doc_of studysessions))
           study_sessions_field_map None [];
    mret (b1 ++ b2 ++ b3 ++ b4).
Proof. apply run_blocks. Qed.

(** X19: a run is all or nothing: it raises, and so prints no report at
    all, exactly when some CSV row of some table is not a dict; otherwise
    it returns the lines of all four tables. *)
Theorem run_raises_iff (set_iter : gset row_tuple → list row_tuple)
    (subjects categories studytasks studysessions : table_input) :
  (run set_iter subjects categories studytasks studysessions
   = Raise AttributeError
   ↔ Exists (λ r, isinstance_dict r = false)
       (csv_rows_of subjects ++ csv_rows_of categories
        ++ csv_rows_of studytasks ++ csv_rows_of studysessions))
  ∧ ((∃ lines, run set_iter subjects categories studytasks studysessions
               = Ok lines)
     ↔ Forall (λ r, isinstance_dict r = true)
         (csv_rows_of subjects ++ csv_rows_of categories
          ++ csv_rows_of studytasks ++ csv_rows_of studysessions)).
Proof.
  rewrite <- all_dicts_false, <- all_dicts_true, !forallb_app, run_blocks.
  unfold compare_sets. rewrite !csv_set_dicts.
  destruct (forallb isinstance_dict (csv_rows_of subjects)),
           (forallb isinstance_dict (csv_rows_of categories)),
           (forallb isinstance_dict (csv_rows_of studytasks)),
           (forallb isinstance_dict (csv_rows_of studysessions));
    simpl; (split; split; intros H);
    try done; try (by eexists); by destruct H.
Qed.

(** ** Values and their text *)

Lemma dict_lookup_as_text d k :
  dict_lookup (dict_as_text d) k = as_text <$> dict_lookup d k.
Proof.
  induction d as [|[k' v] d IH]; [done|]. simpl.
  by case_bool_decide.
Qed.

Lemma dict_get_as_text d k :
  dict_get (dict_as_text d) k (PStr "") = as_text (dict_get d k (PStr "")).
Proof.
  unfold dict_get. rewrite dict_lookup_as_text.
  by destruct (dict_lookup d k).
Qed.

Lemma norm_as_text v :
  norm_bool (as_text v) = norm_bool v ∧ norm_str (as_text v) = norm_str v.
Proof. by destruct v as [|[]| | | | |]. Qed.

(** X20: both normalisers see a value only through its text: a value and
    the text a CSV cell would hold for it ([str] of the value, nothing
    for [None]) normalise alike, so the JSON [true] and the cell [True],
    or the JSON [3] and the cell [3], cannot be told apart. *)
Theorem normalisers_see_text_only (v : pyval) :
  norm_bool (as_text v) = norm_bool v ∧ norm_str (as_text v) = norm_str v.
Proof. apply norm_as_text. Qed.

(** X21: a row and the same row with every value written as text get the
    same tuple. *)
Theorem row_to_tuple_as_text (ignore_fields : gset string) (row : pydict)
    (mapping : list (string * string)) (side side' : bool) :
  row_to_tuple ignore_fields (dict_as_text row) mapping side
  = row_to_tuple ignore_fields row mapping side'.
Proof.
  apply row_to_tuple_ext, Forall_forall. intros [out_key src_key] _.
  unfold tuple_entry. simpl. rewrite dict_get_as_text.
  by destruct (norm_as_text (dict_get row src_key (PStr ""))) as [-> ->].
Qed.

(** Being counted is another matter: zero and [False] are falsy, their
    texts are not, so a row of zeros is dropped on the JSON side and kept
    once it is text. *)
Example zero_row_counted_as_text :
  counted (PDict [(KStr "total_tasks", PInt 0); (KStr "notes", PBool false)])
  = false
  ∧ counted (PDict (dict_as_text [(KStr "total_tasks", PInt 0);
                                  (KStr "notes", PBool false)])) = true.
Proof. split; reflexivity. Qed.
